(** * Air-quality dashboard: classifier, estimator and favorites store

    A shallow embedding of the logic of [src/components/pages/Aqi.tsx]:
    [getCigaretteEquivalent], [getHealthAdvice], [aqiColor], the derived
    value [advice], the clamp of [gaugeRotation], the reading, the forecast
    and the hourly series that [fetchAndSet] stores, the [favorites] state
    initialiser, its saving effect, the two updaters [toggleFavorite] and
    [removeFavorite] and the click handlers that call them. *)

From Stdlib Require Import ZArith QArith Lia Bool Ascii.
From stdpp Require Import base decidable option list strings pretty gmap.

Local Open Scope Z_scope.

(** ** JavaScript numbers

    A JavaScript [number] is an IEEE-754 double: NaN, one of the two
    infinities, or a finite value.  Every finite double is a rational and the
    relational operators compare the exact values, so a finite number is
    carried as a rational; the model has more finite values than there are
    doubles, which only strengthens a statement made for all of them. *)
Module JsNumber.

Inductive number : Type :=
| NaN
| PosInfinity
| NegInfinity
| Finite (q : Q).

Definition of_Z (z : Z) : number := Finite (inject_Z z).

(** [a <= b] of JavaScript: false as soon as one side is NaN. *)
Definition le (a b : number) : bool :=
match a, b with
| NaN, _ | _, NaN => false
| NegInfinity, _ => true
| _, PosInfinity => true
| PosInfinity, _ => false
| _, NegInfinity => false
| Finite x, Finite y => Qle_bool x y
end.

(** [a < b] and [a > b] of JavaScript. *)
Definition lt (a b : number) : bool :=
match a, b with
| NaN, _ | _, NaN => false
| PosInfinity, _ => false
| _, NegInfinity => false
| NegInfinity, _ => true
| _, PosInfinity => true
| Finite x, Finite y => negb (Qle_bool y x)
end.

Definition gt (a b : number) : bool := lt b a.

Definition is_nan (a : number) : bool :=
match a with NaN => true | _ => false end.

(** Truthiness of a number: [0], [-0] and [NaN] are falsy. *)
Definition truthy (a : number) : bool :=
match a with
| NaN => false
| Finite q => negb (Qeq_bool q 0)
| _ => true
end.

End JsNumber.

Import JsNumber.

Declare Scope number_scope.
Delimit Scope number_scope with num.
Notation "a <=? b" := (JsNumber.le a b) : number_scope.
Bind Scope number_scope with number.

(** ** The estimator: [getCigaretteEquivalent] *)

Definition getCigaretteEquivalent (aqi : option number) : Z :=
  match aqi with
  | None => 0
  | Some aqi =>
      if (aqi <=? of_Z 50)%num then 0
      else if (aqi <=? of_Z 100)%num then 2
      else if (aqi <=? of_Z 200)%num then 5
      else if (aqi <=? of_Z 300)%num then 8
      else if (aqi <=? of_Z 400)%num then 13
      else 13
  end.

(** ** The classifier: [getHealthAdvice] *)

Record Advice : Type := mkAdvice {
  level : string;
  action : string;
  mask : bool
}.

Definition getHealthAdvice (aqi : number) : Advice :=
  if (aqi <=? of_Z 50)%num then
    {| level := "Good";
       action := "Air quality is good ‚Äî enjoy outdoor activities.";
       mask := false |}
  else if (aqi <=? of_Z 100)%num then
    {| level := "Moderate";
       action := "Some sensitive people should reduce strenuous outdoor activity.";
       mask := false |}
  else if (aqi <=? of_Z 150)%num then
    {| level := "Unhealthy for Sensitive Groups";
       action := "People with respiratory conditions should limit outdoor exposure. Consider wearing an N95 for long time outdoors.";
       mask := true |}
  else if (aqi <=? of_Z 200)%num then
    {| level := "Unhealthy";
       action := "Avoid extended outdoor exertion. Use an N95/KN95 mask outdoors.";
       mask := true |}
  else if (aqi <=? of_Z 300)%num then
    {| level := "Very Unhealthy";
       action := "Stay indoors and use air purifiers if possible. Masks strongly recommended outdoors.";
       mask := true |}
  else
    {| level := "Hazardous";
       action := "Remain indoors, avoid all outdoor activity. Seek medical advice if symptoms occur.";
       mask := true |}.

(** [advice]: the memoised value [aqi !== null ? getHealthAdvice(aqi) : null]. *)
Definition advice (aqi : option number) : option Advice :=
  match aqi with
  | Some v => Some (getHealthAdvice v)
  | None => None
  end.

(** The tier label next to the number:
    [aqi !== null ? getHealthAdvice(aqi).level : (empty string)]. *)
Definition levelLabel (aqi : option number) : string :=
  match aqi with
  | Some v => level (getHealthAdvice v)
  | None => EmptyString
  end.

(** The advisory paragraph: [advice?.action ?? "Search a city ..."]. *)
Definition actionText (aqi : option number) : string :=
  match advice aqi with
  | Some a => action a
  | None => "Search a city or allow location access to see recommendations."
  end.


(** ** Exceptions

    [try { ... } catch { ... }] blocks are modelled with an error monad: a
    computation either returns a value or throws. *)

Inductive exn : Type :=
  | SyntaxError
  | SecurityError.

Inductive result (A : Type) : Type :=
  | Returns (a : A)
  | Throws (e : exn).
Arguments Returns {A} a.
Arguments Throws {A} e.

Definition bind {A B : Type} (m : result A) (k : A -> result B) : result B :=
  match m with
  | Returns a => k a
  | Throws e => Throws e
  end.

Definition try_catch {A : Type} (body : result A) (handler : exn -> result A)
  : result A :=
  match body with
  | Returns a => Returns a
  | Throws e => handler e
  end.

Definition throws {A : Type} (m : result A) : bool :=
  match m with Throws _ => true | Returns _ => false end.

(** ** JSON values and the browser's key-value storage *)

Inductive json : Type :=
  | JNull
  | JBool (b : bool)
  | JNumber (n : number)
  | JString (s : string)
  | JArray (items : list json)
  | JObject (fields : list (string * json)).

(** The value is a JavaScript array whose elements are all strings, that is,
    a value of the declared state type [string[]]. *)
Definition as_string (v : json) : option string :=
  match v with JString s => Some s | _ => None end.

Definition as_string_list (v : json) : option (list string) :=
  match v with
  | JArray items => mapM as_string items
  | _ => None
  end.

(** [localStorage]: reading it throws when the origin is denied access to
    storage; otherwise [getItem] returns the stored string or [null]. *)
Inductive Storage : Type :=
  | Denied
  | Items (m : gmap string string).

Definition getItem (ls : Storage) (key : string) : result (option string) :=
  match ls with
  | Denied => Throws SecurityError
  | Items m => Returns (m !! key)
  end.

Definition STORAGE_KEY : string := "aqi_favorites_v1".

(** Truthiness of [raw], a string or [null]: [null] and the empty string are
    falsy. *)
Definition truthy_raw (raw : option string) : bool :=
  match raw with
  | None => false
  | Some s => negb (String.eqb s EmptyString)
  end.

(** ** The reading stored by [fetchAndSet] *)

Section Reading.

(** [Number(x)], the numeric conversion of the host, used by the code on
    readings that are not of type number; [None] stands for [undefined],
    a missing [aqi] field. *)
Variable Number : option json -> number.

(** [setAqi(typeof d.aqi === "number" ? d.aqi : (Number(d.aqi) || null))]:
    the value the [aqi] state receives for a reading [d.aqi]. *)
Definition fetchAndSet_aqi (d_aqi : option json) : option number :=
  match d_aqi with
  | Some (JNumber n) => Some n
  | _ =>
      let x := Number d_aqi in
      if JsNumber.truthy x then Some x else None
  end.

End Reading.

(** ** The favorites store *)

Section FavoritesInit.

(** [JSON.parse], a built-in of the host: it returns the parsed value or
    throws. *)
Variable JSON_parse : string -> result json.

(** The lazy initialiser of the [favorites] state:
    [try { const raw = localStorage.getItem(STORAGE_KEY);
           return raw ? JSON.parse(raw) : []; } catch { return []; }]. *)
Definition favorites_init (ls : Storage) : result json :=
  try_catch
    (bind (getItem ls STORAGE_KEY) (fun raw =>
       match raw with
       | Some s => if truthy_raw raw then JSON_parse s else Returns (JArray [])
       | None => Returns (JArray [])
       end))
    (fun _ => Returns (JArray [])).

End FavoritesInit.

(** *** A parser for concrete storage contents

    [JSON_parse_core] is an executable parser for the core of the JSON
    grammar that a favorites list is written in: white space, [null],
    [true], [false], integers of magnitude at most 2^53 without fraction or
    exponent, strings without escape sequences, and arrays of these.  On such
    a text it returns the value that [JSON.parse] returns; it reports every
    other text as a [SyntaxError].  The statements below are made for an
    arbitrary parser; this one serves to run the initialiser on concrete
    storage contents. *)
Module JsonCore.

Definition quote : ascii := "034"%char.
Definition backslash : ascii := "092"%char.

Definition is_ws (c : ascii) : bool :=
  (Ascii.eqb c " " || Ascii.eqb c "009" || Ascii.eqb c "010"
   || Ascii.eqb c "013")%char.

Fixpoint skip_ws (s : list ascii) : list ascii :=
  match s with
  | c :: r => if is_ws c then skip_ws r else s
  | [] => []
  end.

Fixpoint strip (p s : list ascii) : option (list ascii) :=
  match p, s with
  | [], _ => Some s
  | a :: p', c :: s' => if Ascii.eqb a c then strip p' s' else None
  | _ :: _, [] => None
  end.

Definition digit (c : ascii) : option Z :=
  let n := Z.of_nat (nat_of_ascii c) in
  if (48 <=? n) && (n <=? 57) then Some (n - 48) else None.

Fixpoint digits (acc : Z) (s : list ascii) : Z * list ascii :=
  match s with
  | c :: r =>
      match digit c with
      | Some d => digits (10 * acc + d) r
      | None => (acc, s)
      end
  | [] => (acc, [])
  end.

(** [0], or a non-zero digit followed by digits; a fraction or an exponent
    after it is outside the fragment. *)
Definition integer (s : list ascii) : option (Z * list ascii) :=
  match s with
  | c :: r =>
      match digit c with
      | Some d =>
          let '(z, rest) := if d =? 0 then (0, r) else digits d r in
          match rest with
          | c' :: _ =>
              if (Ascii.eqb c' "." || Ascii.eqb c' "e" || Ascii.eqb c' "E")%char
              then None else Some (z, rest)
          | [] => Some (z, rest)
          end
      | None => None
      end
  | [] => None
  end.

Definition in_range (z : Z) : bool := Z.abs z <=? 2 ^ 53.

Fixpoint string_body (s : list ascii) : option (list ascii * list ascii) :=
  match s with
  | [] => None
  | c :: r =>
      if Ascii.eqb c quote then Some ([], r)
      else if Ascii.eqb c backslash || (nat_of_ascii c <? 32)%nat then None
      else
        match string_body r with
        | Some (b, r') => Some (c :: b, r')
        | None => None
        end
  end.

Definition keyword (lit : string) (v : json) (s : list ascii)
  : option (json * list ascii) :=
  match strip (String.list_ascii_of_string lit) s with
  | Some r => Some (v, r)
  | None => None
  end.

Fixpoint value (fuel : nat) (s : list ascii) : option (json * list ascii) :=
  match fuel with
  | O => None
  | S fuel =>
      match skip_ws s with
      | [] => None
      | c :: r =>
          if Ascii.eqb c "n" then keyword "null" JNull (c :: r)
          else if Ascii.eqb c "t" then keyword "true" (JBool true) (c :: r)
          else if Ascii.eqb c "f" then keyword "false" (JBool false) (c :: r)
          else if Ascii.eqb c quote then
            match string_body r with
            | Some (b, r') => Some (JString (String.string_of_list_ascii b), r')
            | None => None
            end
          else if Ascii.eqb c "[" then
            match skip_ws r with
            | c' :: r' =>
                if Ascii.eqb c' "]" then Some (JArray [], r')
                else
                  match elements fuel r with
                  | Some (vs, r'') => Some (JArray vs, r'')
                  | None => None
                  end
            | [] => None
            end
          else if Ascii.eqb c "-" then
            match integer r with
            | Some (z, r') =>
                if in_range z then Some (JNumber (of_Z (- z)), r') else None
            | None => None
            end
          else
            match integer (c :: r) with
            | Some (z, r') =>
                if in_range z then Some (JNumber (of_Z z), r') else None
            | None => None
            end
      end
  end
with elements (fuel : nat) (s : list ascii) : option (list json * list ascii) :=
  match fuel with
  | O => None
  | S fuel =>
      match value fuel s with
      | Some (v, r) =>
          match skip_ws r with
          | c :: r' =>
              if Ascii.eqb c "," then
                match elements fuel r' with
                | Some (vs, r'') => Some (v :: vs, r'')
                | None => None
                end
              else if Ascii.eqb c "]" then Some ([v], r')
              else None
          | [] => None
          end
      | None => None
      end
  end.

Definition JSON_parse_core (text : string) : result json :=
  match value (2 * String.length text + 2) (String.list_ascii_of_string text) with
  | Some (v, r) =>
      match skip_ws r with
      | [] => Returns v
      | _ :: _ => Throws SyntaxError
      end
  | None => Throws SyntaxError
  end.

End JsonCore.

(** *** A numeric conversion for concrete readings

    [Number_core] agrees with [Number] on [undefined], [null], the booleans,
    numbers, the empty string and strings made of an optional sign and
    decimal digits; a string with any other character is given as NaN, which
    is what [Number] returns for the "-" that the provider sends for a
    station without data.  Arrays and objects are outside this fragment.
    Like [JSON_parse_core] it only serves to run the code on concrete
    inputs. *)
Module NumberCore.

Definition signed_digits (s : list ascii) : option Z :=
  let '(sign, body) :=
    match s with
    | c :: r =>
        if Ascii.eqb c "-" then (-1, r)
        else if Ascii.eqb c "+" then (1, r)
        else (1, s)
    | [] => (1, s)
    end in
  match body with
  | [] => None
  | _ :: _ =>
      match JsonCore.digits 0 body with
      | (z, []) => Some (sign * z)
      | (_, _ :: _) => None
      end
  end.

Definition string_to_number (s : string) : number :=
  match String.list_ascii_of_string s with
  | [] => of_Z 0
  | cs =>
      match signed_digits cs with
      | Some z => of_Z z
      | None => NaN
      end
  end.

Definition Number_core (x : option json) : number :=
  match x with
  | None => NaN
  | Some JNull => of_Z 0
  | Some (JBool b) => of_Z (if b then 1 else 0)
  | Some (JNumber n) => n
  | Some (JString s) => string_to_number s
  | Some (JArray _) | Some (JObject _) => NaN
  end.

End NumberCore.

(** [prev.includes(name)], [prev.filter((p) => p !== name)] and
    [xs.slice(0, n)] on arrays of strings. *)
Definition includes (prev : list string) (name : string) : bool :=
  bool_decide (name ∈ prev).

Definition filter_ne (name : string) (prev : list string) : list string :=
  filter (λ p, p ≠ name) prev.

Definition slice0 (n : nat) (xs : list string) : list string := take n xs.

(** The updater run by [toggleFavorite(name)]. *)
Definition toggleFavorite (name : string) (prev : list string) : list string :=
  if includes prev name then filter_ne name prev
  else slice0 10 (name :: prev).

(** The updater run by [removeFavorite(name)]. *)
Definition removeFavorite (name : string) (prev : list string) : list string :=
  filter_ne name prev.

(** A user action on the favorites list and the state after a run of them. *)
Inductive FavAction : Type :=
  | Toggle (name : string)
  | Remove (name : string).

Definition step (prev : list string) (a : FavAction) : list string :=
  match a with
  | Toggle name => toggleFavorite name prev
  | Remove name => removeFavorite name prev
  end.

Definition run (acts : list FavAction) (start : list string) : list string :=
  foldl step start acts.

(** Toggling the names of [names] one after the other, first name first. *)
Definition toggleAll (names : list string) (start : list string) : list string :=
  run (Toggle <$> names) start.

(** The collection invariant: no duplicates, at most 10 entries. *)
Definition favorites_ok (l : list string) : Prop :=
  NoDup l ∧ (length l ≤ 10)%nat.

(** ** The colour of the gauge: [aqiColor] *)

Definition aqiColor (aqi : number) : string :=
  if (aqi <=? of_Z 50)%num then "bg-green-500 text-green-900"
  else if (aqi <=? of_Z 100)%num then "bg-yellow-400 text-yellow-900"
  else if (aqi <=? of_Z 150)%num then "bg-orange-500 text-orange-900"
  else if (aqi <=? of_Z 200)%num then "bg-red-500 text-red-900"
  else if (aqi <=? of_Z 300)%num then "bg-purple-600 text-purple-100"
  else "bg-rose-900 text-rose-100".

(** ** The needle of the gauge

    [Math.min] and [Math.max]: NaN as soon as one argument is NaN. *)
Definition Math_min (a b : number) : number :=
  match a, b with
  | NaN, _ | _, NaN => NaN
  | _, _ => if JsNumber.le a b then a else b
  end.

Definition Math_max (a b : number) : number :=
  match a, b with
  | NaN, _ | _, NaN => NaN
  | _, _ => if JsNumber.le a b then b else a
  end.

(** The value [capped] of [gaugeRotation]:
    [const v = aqi ?? 0; const capped = Math.max(0, Math.min(500, v));].
    The scaling [(capped / 500) * 180] that follows is floating-point
    arithmetic and is left out. *)
Definition gaugeRotation_capped (aqi : option number) : number :=
  let v := match aqi with Some x => x | None => of_Z 0 end in
  Math_max (of_Z 0) (Math_min (of_Z 500) v).

(** ** The favorite buttons and the saving effect *)

(** The click handler of the star and of the "Add Favorite" button:
    [if (!locationName) return; toggleFavorite(locationName);]. *)
Definition toggleClick (locationName : string) (prev : list string)
  : list string :=
  if String.eqb locationName EmptyString then prev
  else toggleFavorite locationName prev.

(** What a click does to the list: the star toggles the current place, the
    bin of a saved city removes it. *)
Definition click (prev : list string) (a : FavAction) : list string :=
  match a with
  | Toggle locationName => toggleClick locationName prev
  | Remove name => removeFavorite name prev
  end.

Section Persist.

(** [JSON.stringify], a built-in of the host, and the quota of the browser:
    whether it accepts the contents that a write would give the storage. *)
Variable JSON_stringify : json -> string.
Variable quota_ok : gmap string string -> bool.

(** [localStorage.setItem]: the storage after the call, or [None] when the
    call throws, which it does when storage is denied and when the quota is
    exceeded. *)
Definition setItem (ls : Storage) (key value : string) : option Storage :=
  match ls with
  | Denied => None
  | Items m =>
      let m' := <[key := value]> m in
      if quota_ok m' then Some (Items m') else None
  end.

(** The effect run after every change of [favorites]:
    [try { localStorage.setItem(STORAGE_KEY, JSON.stringify(favorites)); }
     catch {}]; the result is the storage afterwards. *)
Definition saveFavorites (favorites : json) (ls : Storage) : Storage :=
  match setItem ls STORAGE_KEY (JSON_stringify favorites) with
  | Some ls' => ls'
  | None => ls
  end.

End Persist.

(** The favorites list as the JavaScript array that is saved. *)
Definition json_of_names (names : list string) : json :=
  JArray (JString <$> names).

(** *** A printer for concrete favorites

    [JSON_stringify_core] prints what [JSON.stringify] prints for [null],
    booleans, NaN and the infinities (all [null]), integers, strings
    without characters that need an escape, and arrays of these; objects,
    other numbers and other strings are outside this fragment and printed
    as [null].  It serves to run the saving effect on concrete lists. *)
Module JsonPrint.

Fixpoint join (sep : string) (parts : list string) : string :=
  match parts with
  | [] => EmptyString
  | [p] => p
  | p :: rest => p +:+ sep +:+ join sep rest
  end.

Definition plain_char (c : ascii) : bool :=
  negb (Ascii.eqb c JsonCore.quote) && negb (Ascii.eqb c JsonCore.backslash)
  && (32 <=? nat_of_ascii c)%nat.

Definition plain (s : string) : bool :=
  forallb plain_char (String.list_ascii_of_string s).

Definition quoted (s : string) : string :=
  String JsonCore.quote (s +:+ String JsonCore.quote EmptyString).

Fixpoint JSON_stringify_core (v : json) : string :=
  match v with
  | JNull => "null"
  | JBool true => "true"
  | JBool false => "false"
  | JNumber (Finite q) =>
      if (Qden q =? 1)%positive then pretty (Qnum q) else "null"
  | JNumber _ => "null"
  | JString s => if plain s then quoted s else "null"
  | JArray items =>
      "[" +:+ join "," (map JSON_stringify_core items) +:+ "]"
  | JObject _ => "null"
  end.

End JsonPrint.

(** ** The forecast strip built by [fetchAndSet]

    The code reads [d.forecast.daily], an object whose values are, as the
    source says, arrays of [{day: "YYYY-MM-DD", avg: N}]. *)
Module Forecast.

(** An element of such an array; [avg] may be missing or [null]. *)
Record DailyEntry : Type := mkEntry {
  entry_day : string;
  entry_avg : option number
}.

(** A value of the [daily] object: an array of entries, [null], or any other
    value, which is not an array and has no [find] method. *)
Inductive DailyValue : Type :=
  | Series (arr : list DailyEntry)
  | Null
  | NotArray.

(** The [daily] object: its own keys in the order of [Object.keys], each
    with its value; the keys of an object are distinct. *)
Definition Daily : Type := list (string * DailyValue).

Fixpoint prop (daily : Daily) (k : string) : option DailyValue :=
  match daily with
  | [] => None
  | (k', v) :: rest => if String.eqb k' k then Some v else prop rest k
  end.

Record ForecastDay : Type := mkDay {
  day : string;
  pm25 : option number;
  pm10 : option number;
  o3 : option number;
  aqi : option number
}.

(** A step either completes or throws a [TypeError], which the [catch] of
    [fetchAndSet] turns into the error message. *)
Inductive completion (A : Type) : Type :=
  | Normal (a : A)
  | TypeErrorThrown.
Arguments Normal {A} a.
Arguments TypeErrorThrown {A}.

Definition andThen {A B : Type} (m : completion A) (k : A -> completion B)
  : completion B :=
  match m with
  | Normal a => k a
  | TypeErrorThrown => TypeErrorThrown
  end.

(** [arr.find((it) => it.day === dayStr)]. *)
Fixpoint find_day (dayStr : string) (arr : list DailyEntry)
  : option DailyEntry :=
  match arr with
  | [] => None
  | it :: rest =>
      if String.eqb (entry_day it) dayStr then Some it
      else find_day dayStr rest
  end.

(** [daily.k?.find((it) => it.day === dayStr)?.avg ?? null]. *)
Definition avg_of (daily : Daily) (k dayStr : string)
  : completion (option number) :=
  match prop daily k with
  | None | Some Null => Normal None
  | Some NotArray => TypeErrorThrown
  | Some (Series arr) =>
      Normal (match find_day dayStr arr with
              | Some it => entry_avg it
              | None => None
              end)
  end.

(** The object pushed for a new day. *)
Definition new_day (daily : Daily) (dayStr : string) : completion ForecastDay :=
  andThen (avg_of daily "pm25" dayStr) (fun a =>
  andThen (avg_of daily "pm10" dayStr) (fun b =>
  andThen (avg_of daily "o3" dayStr) (fun c =>
  Normal {| day := dayStr; pm25 := a; pm10 := b; o3 := c; aqi := None |}))).

(** [f.find((x) => x.day === dayStr)] is defined. *)
Definition existing (f : list ForecastDay) (dayStr : string) : bool :=
  existsb (fun x => String.eqb (day x) dayStr) f.

(** One turn of the inner loop, up to the test for the [break]: a day that
    is not yet in [f] is pushed. *)
Definition visit (daily : Daily) (f : list ForecastDay) (dayStr : string)
  : completion (list ForecastDay) :=
  if existing f dayStr then Normal f
  else andThen (new_day daily dayStr) (fun d => Normal (f ++ [d])).

(** The inner loop [for (const entry of arr.slice(0, 3))], from the entries
    that are left, with its [break] once [f] has three days. *)
Fixpoint scan_entries (daily : Daily) (entries : list DailyEntry)
    (f : list ForecastDay) : completion (list ForecastDay) :=
  match entries with
  | [] => Normal f
  | entry :: rest =>
      andThen (visit daily f (entry_day entry)) (fun f' =>
        if (3 <=? length f')%nat then Normal f'
        else scan_entries daily rest f')
  end.

(** The outer loop [for (const k of keys)], with its [continue] on a value
    that is not an array and its [break]. *)
Fixpoint scan_keys (daily : Daily) (keys : list string)
    (f : list ForecastDay) : completion (list ForecastDay) :=
  match keys with
  | [] => Normal f
  | k :: rest =>
      match prop daily k with
      | Some (Series arr) =>
          andThen (scan_entries daily (take 3 arr) f) (fun f' =>
            if (3 <=? length f')%nat then Normal f'
            else scan_keys daily rest f')
      | _ => scan_keys daily rest f
      end
  end.

(** The argument of [setForecast]: [f.length ? f : null], where [daily] is
    [None] when [d.forecast] or [d.forecast.daily] is missing. *)
Definition fetchAndSet_forecast (daily : option Daily)
  : completion (option (list ForecastDay)) :=
  andThen
    (match daily with
     | Some dl => scan_keys dl (map fst dl) []
     | None => Normal []
     end)
    (fun f => Normal (if (length f =? 0)%nat then None else Some f)).

(** The days of [stream] added to [seen] in the order in which they are
    first met, and the days that the loops read: those of the first three
    entries of each array, key after key. *)
Fixpoint first_seen (seen stream : list string) : list string :=
  match stream with
  | [] => seen
  | d :: rest =>
      first_seen (if bool_decide (d ∈ seen) then seen else seen ++ [d]) rest
  end.

Definition days_read (daily : Daily) (keys : list string) : list string :=
  concat (map (fun k =>
                 match prop daily k with
                 | Some (Series arr) => map entry_day (take 3 arr)
                 | _ => []
                 end) keys).


End Forecast.

(** ** The hourly series built by [fetchAndSet] *)
Module Hourly.

Record Point : Type := mkPoint {
  time : json;
  value : number
}.

(** The readings [iaqi.k?.v] of the six pollutants. *)
Record Pollutants : Type := mkPollutants {
  pm25 : option number;
  pm10 : option number;
  no2 : option number;
  so2 : option number;
  co : option number;
  o3 : option number
}.

(** [it.k] for an element [it] of a parsed array other than [null]: the
    field of an object, [undefined] ([None]) on anything else. *)
Definition field (fields : list (string * json)) (k : string) : option json :=
  snd <$> List.find (fun kv => String.eqb (fst kv) k) fields.

Definition get (it : json) (k : string) : option json :=
  match it with
  | JObject fields => field fields k
  | _ => None
  end.

(** [a ?? b]. *)
Definition coalesce (a b : option json) : option json :=
  match a with
  | None | Some JNull => b
  | Some _ => a
  end.

Section Series.

(** [Number(x)] and the label [format(new Date(now - idx * 3600000), "HH:mm")]
    of the hour [idx] hours ago. *)
Variable Number : option json -> number.
Variable hourLabel : nat -> string.

(** The object pushed for an element [it] that is not [null]:
    [{ time: it.hour ?? it.day ?? (empty string),
       value: Number(it.avg ?? it.v ?? it) }]. *)
Definition make_point (it : json) : Point :=
  {| time :=
       match coalesce (coalesce (get it "hour") (get it "day"))
               (Some (JString EmptyString)) with
       | Some t => t
       | None => JString EmptyString
       end;
     value := Number (coalesce (coalesce (get it "avg") (get it "v"))
                        (Some it)) |}.

(** Reading a property of [null] throws a [TypeError] ([None]). *)
Definition point_of (it : json) : option Point :=
  match it with
  | JNull => None
  | _ => Some (make_point it)
  end.

(** The loop over [hourlyObj.pm25.slice(0, 24)] inside [try { } catch {}]:
    a throw ends the loop and keeps what was pushed. *)
Fixpoint push_points (items : list json) (hourly : list Point) : list Point :=
  match items with
  | [] => hourly
  | it :: rest =>
      match point_of it with
      | Some p => push_points rest (hourly ++ [p])
      | None => hourly
      end
  end.

(** The six points made from the current readings when nothing was pushed. *)
Definition fallback (iaqi : Pollutants) : list Point :=
  imap (fun idx v =>
          {| time := JString (hourLabel idx);
             value := match v with Some x => x | None => of_Z 0 end |})
    [pm25 iaqi; pm10 iaqi; o3 iaqi; no2 iaqi; so2 iaqi; co iaqi].

(** The argument of [setHourlyData]; [hourly_pm25] is the array
    [d.forecast.hourly.pm25] when there is one. *)
Definition fetchAndSet_hourly (hourly_pm25 : option (list json))
    (iaqi : Pollutants) : list Point :=
  let hourly :=
    match hourly_pm25 with
    | Some arr => push_points (take 24 arr) []
    | None => []
    end in
  let hourly := if (length hourly =? 0)%nat then fallback iaqi else hourly in
  take 24 hourly.

End Series.

End Hourly.

(** * Properties *)

(** ** Comparisons of numbers *)

Section NumberFacts.

Local Open Scope Q_scope.

Lemma Qle_bool_false (x y : Q) : Qle_bool x y = false ↔ y < x.
Proof.
  split.
  - intros E. apply Qnot_le_lt. intros H.
    apply Qle_bool_iff in H. congruence.
  - intros H. destruct (Qle_bool x y) eqn:E; [|reflexivity].
    apply Qle_bool_iff in E. exfalso. exact (Qlt_not_le _ _ H E).
Qed.

(** On finite numbers the comparisons of JavaScript are those of the
    rationals. *)
Lemma le_Finite (x y : Q) : JsNumber.le (Finite x) (Finite y) = true ↔ x <= y.
Proof. apply Qle_bool_iff. Qed.

Lemma gt_Finite (x y : Q) : JsNumber.gt (Finite x) (Finite y) = true ↔ y < x.
Proof.
  unfold JsNumber.gt, JsNumber.lt. rewrite negb_true_iff.
  apply Qle_bool_false.
Qed.

(** On every number [x > y] is the negation of [x <= y], NaN apart. *)
Lemma gt_not_le (x y : number) :
  JsNumber.gt x y = true → JsNumber.le x y = false.
Proof.
  destruct x, y; simpl; try congruence.
  unfold JsNumber.gt, JsNumber.lt. now rewrite negb_true_iff.
Qed.

Lemma le_trans_const (v : number) (a b : Z) :
  (a <= b)%Z → JsNumber.le v (of_Z a) = true → JsNumber.le v (of_Z b) = true.
Proof.
  intros Hab. destruct v; simpl; try congruence.
  rewrite !Qle_bool_iff. intros H.
  eapply Qle_trans; [exact H|]. now rewrite <- Zle_Qle.
Qed.

Lemma not_le_trans_const (v : number) (a b : Z) :
  (a <= b)%Z → JsNumber.le v (of_Z b) = false → JsNumber.le v (of_Z a) = false.
Proof.
  intros Hab Hb. destruct (JsNumber.le v (of_Z a)) eqn:Ha; [|reflexivity].
  rewrite (le_trans_const v a b Hab Ha) in Hb. discriminate.
Qed.

End NumberFacts.

(** Rewrites every test of a threshold that the context decides. *)
Ltac decide_thresholds :=
  repeat match goal with
  | H : JsNumber.gt ?v ?c = true |- _ => apply gt_not_le in H
  | H : JsNumber.le ?v (of_Z ?a) = true |- context [JsNumber.le ?v (of_Z ?b)] =>
      rewrite (le_trans_const v a b ltac:(lia) H)
  | H : JsNumber.le ?v (of_Z ?b) = false |- context [JsNumber.le ?v (of_Z ?a)] =>
      rewrite (not_le_trans_const v a b ltac:(lia) H)
  end.

(** ** The bands of the classifier and of the estimator *)

(** Which branch [getHealthAdvice] takes, band by band. *)
Lemma getHealthAdvice_band (v : number) :
  ((v <=? of_Z 50)%num = true →
     level (getHealthAdvice v) = "Good" ∧ mask (getHealthAdvice v) = false) ∧
  (JsNumber.gt v (of_Z 50) = true → (v <=? of_Z 100)%num = true →
     level (getHealthAdvice v) = "Moderate" ∧ mask (getHealthAdvice v) = false) ∧
  (JsNumber.gt v (of_Z 100) = true → (v <=? of_Z 150)%num = true →
     level (getHealthAdvice v) = "Unhealthy for Sensitive Groups"
     ∧ mask (getHealthAdvice v) = true) ∧
  (JsNumber.gt v (of_Z 150) = true → (v <=? of_Z 200)%num = true →
     level (getHealthAdvice v) = "Unhealthy" ∧ mask (getHealthAdvice v) = true) ∧
  (JsNumber.gt v (of_Z 200) = true → (v <=? of_Z 300)%num = true →
     level (getHealthAdvice v) = "Very Unhealthy"
     ∧ mask (getHealthAdvice v) = true) ∧
  ((v <=? of_Z 300)%num = false →
     level (getHealthAdvice v) = "Hazardous" ∧ mask (getHealthAdvice v) = true).
Proof.
  unfold getHealthAdvice.
  repeat split; intros; decide_thresholds; reflexivity.
Qed.

Lemma ge_const_not_le (v : number) (a b : Z) :
  (b < a)%Z → (of_Z a <=? v)%num = true → (v <=? of_Z b)%num = false.
Proof.
  intros Hab. destruct v; simpl; try congruence.
  rewrite Qle_bool_iff, Qle_bool_false. intros H.
  eapply Qlt_le_trans; [|exact H]. now rewrite <- Zlt_Qlt.
Qed.

(** C1. Every index between 0 and 50 is classified "Good" without a mask
    recommendation, every index between 151 and 200 "Unhealthy" with one;
    75 is "Moderate" without mask and 250 "Very Unhealthy" with mask. *)
Theorem getHealthAdvice_ranges (v : number) :
  ((of_Z 0 <=? v)%num = true → (v <=? of_Z 50)%num = true →
     level (getHealthAdvice v) = "Good" ∧ mask (getHealthAdvice v) = false) ∧
  ((of_Z 151 <=? v)%num = true → (v <=? of_Z 200)%num = true →
     level (getHealthAdvice v) = "Unhealthy" ∧ mask (getHealthAdvice v) = true) ∧
  (level (getHealthAdvice (of_Z 75)) = "Moderate"
   ∧ mask (getHealthAdvice (of_Z 75)) = false) ∧
  (level (getHealthAdvice (of_Z 250)) = "Very Unhealthy"
   ∧ mask (getHealthAdvice (of_Z 250)) = true).
Proof.
  split; [|split; [|split; split; reflexivity]].
  - intros _ H50. exact (proj1 (getHealthAdvice_band v) H50).
  - intros H151 H200.
    pose proof (ge_const_not_le v 151 150 ltac:(lia) H151) as H150.
    unfold getHealthAdvice. decide_thresholds. rewrite ?H150, ?H200.
    split; reflexivity.
Qed.

Lemma getHealthAdvice_ranges_witness :
  level (getHealthAdvice (of_Z 25)) = "Good"
  ∧ mask (getHealthAdvice (of_Z 175)) = true.
Proof.
  split.
  - apply (proj1 (getHealthAdvice_ranges (of_Z 25))); reflexivity.
  - apply (proj1 (proj2 (getHealthAdvice_ranges (of_Z 175)))); reflexivity.
Defined.

(** C2. The estimator is the step function 0 / 2 / 5 / 8 / 13 over the
    thresholds 50, 100, 200 and 300, and 0 when there is no reading. *)
Theorem getCigaretteEquivalent_steps (v : number) :
  ((v <=? of_Z 50)%num = true → getCigaretteEquivalent (Some v) = 0) ∧
  (JsNumber.gt v (of_Z 50) = true → (v <=? of_Z 100)%num = true →
     getCigaretteEquivalent (Some v) = 2) ∧
  (JsNumber.gt v (of_Z 100) = true → (v <=? of_Z 200)%num = true →
     getCigaretteEquivalent (Some v) = 5) ∧
  (JsNumber.gt v (of_Z 200) = true → (v <=? of_Z 300)%num = true →
     getCigaretteEquivalent (Some v) = 8) ∧
  (JsNumber.gt v (of_Z 300) = true → getCigaretteEquivalent (Some v) = 13) ∧
  getCigaretteEquivalent None = 0 ∧
  getCigaretteEquivalent (Some (of_Z 0)) = 0 ∧
  getCigaretteEquivalent (Some (of_Z 50)) = 0 ∧
  getCigaretteEquivalent (Some (of_Z 51)) = 2 ∧
  getCigaretteEquivalent (Some (of_Z 100)) = 2 ∧
  getCigaretteEquivalent (Some (of_Z 101)) = 5 ∧
  getCigaretteEquivalent (Some (of_Z 300)) = 8 ∧
  getCigaretteEquivalent (Some (of_Z 301)) = 13 ∧
  getCigaretteEquivalent (Some (of_Z 10000)) = 13.
Proof.
  unfold getCigaretteEquivalent.
  repeat split; intros; decide_thresholds; try reflexivity.
  now destruct (v <=? of_Z 400)%num.
Qed.

Lemma getCigaretteEquivalent_steps_witness :
  getCigaretteEquivalent (Some (of_Z 40)) = 0
  ∧ getCigaretteEquivalent (Some (Finite (151 # 2))) = 2
  ∧ getCigaretteEquivalent (Some (of_Z 150)) = 5
  ∧ getCigaretteEquivalent (Some (of_Z 201)) = 8
  ∧ getCigaretteEquivalent (Some PosInfinity) = 13.
Proof.
  refine (conj _ (conj _ (conj _ (conj _ _)))).
  - apply (getCigaretteEquivalent_steps (of_Z 40)); reflexivity.
  - apply (getCigaretteEquivalent_steps (Finite (151 # 2))); reflexivity.
  - apply (getCigaretteEquivalent_steps (of_Z 150)); reflexivity.
  - apply (getCigaretteEquivalent_steps (of_Z 201)); reflexivity.
  - apply (getCigaretteEquivalent_steps PosInfinity); reflexivity.
Defined.

(** C3. An index equal to the upper bound of a band belongs to that band:
    50 is "Good", 100 "Moderate", 150 "Unhealthy for Sensitive Groups",
    200 "Unhealthy" and 300 "Very Unhealthy"; 50 and 51 fall in different
    tiers. *)
Theorem getHealthAdvice_upper_bounds :
  level (getHealthAdvice (of_Z 50)) = "Good" ∧
  level (getHealthAdvice (of_Z 100)) = "Moderate" ∧
  level (getHealthAdvice (of_Z 150)) = "Unhealthy for Sensitive Groups" ∧
  level (getHealthAdvice (of_Z 200)) = "Unhealthy" ∧
  level (getHealthAdvice (of_Z 300)) = "Very Unhealthy" ∧
  level (getHealthAdvice (of_Z 50)) ≠ level (getHealthAdvice (of_Z 51)).
Proof. repeat split; try reflexivity. discriminate. Qed.

(** C4. The mask flag is false only for the tiers "Good" and "Moderate",
    that is only for an index that is at most 100, and it is true for every
    other tier. *)
Theorem getHealthAdvice_mask (v : number) :
  (mask (getHealthAdvice v) = false →
     (level (getHealthAdvice v) = "Good"
      ∨ level (getHealthAdvice v) = "Moderate")
     ∧ (v <=? of_Z 100)%num = true) ∧
  (level (getHealthAdvice v) ≠ "Good" →
   level (getHealthAdvice v) ≠ "Moderate" →
     mask (getHealthAdvice v) = true).
Proof.
  unfold getHealthAdvice.
  destruct (v <=? of_Z 50)%num eqn:H50.
  { rewrite (le_trans_const v 50 100 ltac:(lia) H50). simpl.
    split; [auto|congruence]. }
  destruct (v <=? of_Z 100)%num eqn:H100.
  { simpl. split; [auto|congruence]. }
  destruct (v <=? of_Z 150)%num, (v <=? of_Z 200)%num, (v <=? of_Z 300)%num;
    simpl; split; try discriminate; reflexivity.
Qed.

Lemma getHealthAdvice_mask_witness :
  (level (getHealthAdvice (of_Z 75)) = "Good"
   ∨ level (getHealthAdvice (of_Z 75)) = "Moderate")
  ∧ mask (getHealthAdvice NaN) = true.
Proof.
  split.
  - apply (proj1 (getHealthAdvice_mask (of_Z 75))). reflexivity.
  - apply (proj2 (getHealthAdvice_mask NaN)); discriminate.
Defined.

(** ** The favorites list *)

Section FavoritesFacts.

Implicit Types (prev l : list string) (name x : string).

Lemma includes_true prev name : includes prev name = true ↔ name ∈ prev.
Proof. unfold includes. apply bool_decide_eq_true. Qed.

Lemma includes_false prev name : includes prev name = false ↔ name ∉ prev.
Proof. unfold includes. apply bool_decide_eq_false. Qed.

Lemma elem_of_filter_ne name prev x :
  x ∈ filter_ne name prev ↔ x ≠ name ∧ x ∈ prev.
Proof. unfold filter_ne. apply (list_elem_of_filter (λ p, p ≠ name)). Qed.

Lemma filter_ne_absent name prev : name ∉ prev → filter_ne name prev = prev.
Proof.
  unfold filter_ne. induction prev as [|y prev IH]; intros Hn; [reflexivity|].
  apply not_elem_of_cons in Hn as [Hne Hn].
  rewrite filter_cons_True by congruence. now rewrite IH.
Qed.

Lemma filter_ne_head name prev :
  filter_ne name (name :: prev) = filter_ne name prev.
Proof. unfold filter_ne. rewrite filter_cons_False; [reflexivity|]. tauto. Qed.

Lemma toggleFavorite_present name prev :
  name ∈ prev → toggleFavorite name prev = filter_ne name prev.
Proof.
  intros H. unfold toggleFavorite. now rewrite (proj2 (includes_true _ _) H).
Qed.

Lemma toggleFavorite_absent name prev :
  name ∉ prev → toggleFavorite name prev = name :: take 9 prev.
Proof.
  intros H. unfold toggleFavorite, slice0.
  now rewrite (proj2 (includes_false _ _) H).
Qed.

Lemma favorites_ok_filter_ne name prev :
  favorites_ok prev → favorites_ok (filter_ne name prev).
Proof.
  intros [Hnd Hlen]. split.
  - now apply NoDup_filter.
  - unfold filter_ne.
    etransitivity; [apply (length_filter (λ p, p ≠ name))|exact Hlen].
Qed.

Lemma favorites_ok_toggle name prev :
  favorites_ok prev → favorites_ok (toggleFavorite name prev).
Proof.
  intros Hok. destruct (decide (name ∈ prev)) as [Hin|Hout].
  - rewrite toggleFavorite_present by exact Hin.
    now apply favorites_ok_filter_ne.
  - rewrite toggleFavorite_absent by exact Hout.
    destruct Hok as [Hnd _]. split.
    + apply NoDup_cons. split.
      * intros Hin. apply Hout.
        exact (subseteq_take 9 prev name Hin).
      * exact (sublist_NoDup _ _ Hnd (sublist_take prev 9)).
    + simpl. rewrite length_take. lia.
Qed.

Lemma favorites_ok_step prev (a : FavAction) :
  favorites_ok prev → favorites_ok (step prev a).
Proof.
  destruct a; simpl.
  - apply favorites_ok_toggle.
  - apply favorites_ok_filter_ne.
Qed.

(** Every state reached from a state that meets the invariant meets it. *)
Lemma favorites_ok_run (acts : list FavAction) start :
  favorites_ok start → favorites_ok (run acts start).
Proof.
  unfold run. revert start.
  induction acts as [|a acts IH]; intros start Hok; simpl; [exact Hok|].
  apply IH. now apply favorites_ok_step.
Qed.

Lemma take_app_take (k : nat) l (l' : list string) :
  take k (l ++ take k l') = take k (l ++ l').
Proof.
  rewrite !take_app, take_take. do 2 f_equal. lia.
Qed.

(** Toggling names that are pairwise distinct and not yet in the list puts
    them in front, the last one first, and keeps the first ten entries. *)
Lemma toggleAll_fresh (names : list string) start :
  NoDup names → (∀ x, x ∈ names → x ∉ start) → (length start ≤ 10)%nat →
  toggleAll names start = take 10 (reverse names ++ start).
Proof.
  unfold toggleAll, run. revert start.
  induction names as [|n names IH]; intros start Hnd Hfresh Hlen; simpl.
  - now rewrite take_ge.
  - apply NoDup_cons in Hnd as [Hn Hnd].
    assert (n ∉ start) as Hns by (apply Hfresh; left).
    rewrite (toggleFavorite_absent n start Hns).
    change (n :: take 9 start) with (take 10 (n :: start)).
    rewrite IH.
    + rewrite take_app_take, reverse_cons, <- app_assoc. reflexivity.
    + exact Hnd.
    + intros x Hx Hin.
      apply (subseteq_take 10 (n :: start) x) in Hin.
      apply elem_of_cons in Hin as [->|Hin]; [exact (Hn Hx)|].
      exact (Hfresh x ltac:(now right) Hin).
    + rewrite length_take. lia.
Qed.

End FavoritesFacts.

(** Toggling an absent name twice gives back the very same list when the
    list has room for it, that is fewer than ten entries. *)
Lemma toggleFavorite_twice_absent (name : string) (prev : list string) :
  name ∉ prev → (length prev < 10)%nat →
  toggleFavorite name (toggleFavorite name prev) = prev.
Proof.
  intros Hout Hlen.
  rewrite (toggleFavorite_absent name prev Hout).
  rewrite toggleFavorite_present by left.
  rewrite filter_ne_head, take_ge by lia.
  now apply filter_ne_absent.
Qed.

(** C5. [toggleFavorite] removes a name that is in the list, and otherwise
    puts it in front and keeps the first ten entries; toggling the same name
    twice restores whether the name is in the list.  Toggling "Paris" on the
    empty list gives ["Paris"], toggling it again gives the empty list. *)
Theorem toggleFavorite_toggle (prev : list string) (name : string) :
  (name ∈ prev →
     toggleFavorite name prev = filter (λ p, p ≠ name) prev
     ∧ (name ∉ toggleFavorite name prev)
     ∧ (∀ x, x ≠ name → (x ∈ toggleFavorite name prev ↔ x ∈ prev))) ∧
  (name ∉ prev →
     toggleFavorite name prev = take 10 (name :: prev)
     ∧ (name ∈ toggleFavorite name prev)) ∧
  ((name ∈ toggleFavorite name (toggleFavorite name prev)) ↔ (name ∈ prev)) ∧
  toggleFavorite "Paris" [] = ["Paris"] ∧
  toggleFavorite "Paris" (toggleFavorite "Paris" []) = [].
Proof.
  assert (Hrm : ∀ l, name ∉ filter_ne name l).
  { intros l H. apply elem_of_filter_ne in H as [H _]. now apply H. }
  split; [|split; [|split; [|split]]].
  - intros Hin. rewrite (toggleFavorite_present name prev Hin).
    split; [reflexivity|]. split; [apply Hrm|].
    intros x Hx. rewrite elem_of_filter_ne. tauto.
  - intros Hout. rewrite (toggleFavorite_absent name prev Hout).
    split; [reflexivity|left].
  - destruct (decide (name ∈ prev)) as [Hin|Hout].
    + rewrite (toggleFavorite_present name prev Hin).
      rewrite (toggleFavorite_absent name _ (Hrm prev)).
      split; [intros _; exact Hin|intros _; left].
    + rewrite (toggleFavorite_absent name prev Hout).
      rewrite toggleFavorite_present by left.
      split; [intros H; destruct (Hrm _ H)|intros H; destruct (Hout H)].
  - reflexivity.
  - vm_compute. reflexivity.
Qed.

Lemma toggleFavorite_toggle_witness :
  ("Oslo" ∉ toggleFavorite "Oslo" ["Rome"; "Oslo"; "Lima"])
  ∧ ("Kyiv" ∈ toggleFavorite "Kyiv" ["Rome"; "Oslo"; "Lima"]).
Proof.
  split.
  - apply (toggleFavorite_toggle ["Rome"; "Oslo"; "Lima"] "Oslo").
    apply (bool_decide_unpack _). vm_compute. exact I.
  - apply (toggleFavorite_toggle ["Rome"; "Oslo"; "Lima"] "Kyiv").
    apply (bool_decide_unpack _). vm_compute. exact I.
Defined.

(** C6. A favorites list without duplicates and with at most ten entries
    stays so under [toggleFavorite] and [removeFavorite], hence under every
    run of them, in particular from the empty list; toggling eleven distinct
    names onto the empty list leaves the last ten, most recent first, and
    the first name is gone. *)
Theorem favorites_invariant (prev : list string) (name : string)
    (acts : list FavAction) (first : string) (rest : list string) :
  (favorites_ok prev →
     favorites_ok (toggleFavorite name prev)
     ∧ favorites_ok (removeFavorite name prev)
     ∧ favorites_ok (run acts prev)) ∧
  favorites_ok (run acts []) ∧
  (NoDup (first :: rest) → length rest = 10%nat →
     toggleAll (first :: rest) [] = reverse rest
     ∧ (first ∉ toggleAll (first :: rest) [])
     ∧ length (toggleAll (first :: rest) []) = 10%nat).
Proof.
  split; [|split].
  - intros Hok. split; [|split].
    + now apply favorites_ok_toggle.
    + now apply favorites_ok_filter_ne.
    + now apply favorites_ok_run.
  - apply favorites_ok_run. split; [constructor|simpl; lia].
  - intros Hnd Hlen.
    assert (toggleAll (first :: rest) [] = reverse rest) as ->.
    { rewrite toggleAll_fresh; [|exact Hnd|intros ? _; apply not_elem_of_nil|simpl; lia].
      rewrite app_nil_r, reverse_cons.
      apply take_app_length'. now rewrite length_reverse. }
    split; [reflexivity|]. split.
    + rewrite elem_of_reverse. now apply NoDup_cons in Hnd as [? _].
    + now rewrite length_reverse.
Qed.

Lemma favorites_invariant_witness :
  favorites_ok (toggleFavorite "Kyiv" ["Rome"; "Oslo"])
  ∧ toggleAll ["c01"; "c02"; "c03"; "c04"; "c05"; "c06"; "c07"; "c08";
               "c09"; "c10"; "c11"] []
    = ["c11"; "c10"; "c09"; "c08"; "c07"; "c06"; "c05"; "c04"; "c03"; "c02"].
Proof.
  split.
  - apply (favorites_invariant ["Rome"; "Oslo"] "Kyiv" [] "Lima" []).
    split; [|simpl; lia].
    apply (bool_decide_unpack _). vm_compute. exact I.
  - apply (favorites_invariant [] "Kyiv" [] "c01"
             ["c02"; "c03"; "c04"; "c05"; "c06"; "c07"; "c08"; "c09"; "c10";
              "c11"]).
    + apply (bool_decide_unpack _). vm_compute. exact I.
    + reflexivity.
Defined.

(** ** Loading the favorites *)

Section LoadFacts.

Variable JSON_parse : string → result json.

Lemma favorites_init_denied :
  favorites_init JSON_parse Denied = Returns (JArray []).
Proof. reflexivity. Qed.

Lemma favorites_init_missing (m : gmap string string) :
  m !! STORAGE_KEY = None →
  favorites_init JSON_parse (Items m) = Returns (JArray []).
Proof. intros H. unfold favorites_init. simpl. now rewrite H. Qed.

Lemma favorites_init_stored (m : gmap string string) (raw : string) :
  m !! STORAGE_KEY = Some raw →
  favorites_init JSON_parse (Items m) =
    if String.eqb raw EmptyString then Returns (JArray [])
    else match JSON_parse raw with
         | Returns v => Returns v
         | Throws _ => Returns (JArray [])
         end.
Proof.
  intros H. unfold favorites_init. simpl. rewrite H. simpl.
  destruct (String.eqb raw EmptyString); [reflexivity|].
  simpl. now destruct (JSON_parse raw).
Qed.

End LoadFacts.

(** C7. The initialiser of the favorites never throws: it always returns a
    value; it returns the empty list when nothing is stored under the key
    and when [JSON.parse] throws on the stored string (as it does when
    reading the storage throws). *)
Theorem favorites_init_never_fails
    (JSON_parse : string → result json) (ls : Storage) :
  (∃ v, favorites_init JSON_parse ls = Returns v) ∧
  (getItem ls STORAGE_KEY = Returns None →
     favorites_init JSON_parse ls = Returns (JArray [])) ∧
  (∀ raw, getItem ls STORAGE_KEY = Returns (Some raw) →
     throws (JSON_parse raw) = true →
     favorites_init JSON_parse ls = Returns (JArray [])) ∧
  (throws (getItem ls STORAGE_KEY) = true →
     favorites_init JSON_parse ls = Returns (JArray [])).
Proof.
  destruct ls as [|m].
  { repeat split; try discriminate; eauto using favorites_init_denied. }
  simpl. destruct (m !! STORAGE_KEY) as [raw|] eqn:Hm.
  - rewrite (favorites_init_stored JSON_parse m raw Hm).
    split; [|split; [|split]]; try discriminate.
    + destruct (String.eqb raw EmptyString); [eauto|].
      destruct (JSON_parse raw); eauto.
    + intros raw' [= <-] Hthrows.
      destruct (String.eqb raw EmptyString); [reflexivity|].
      destruct (JSON_parse raw); [discriminate|reflexivity].
  - rewrite (favorites_init_missing JSON_parse m Hm).
    repeat split; try discriminate; eauto.
Qed.

Lemma favorites_init_never_fails_witness :
  favorites_init JsonCore.JSON_parse_core (Items ∅) = Returns (JArray [])
  ∧ favorites_init JsonCore.JSON_parse_core (Items {[STORAGE_KEY := "{not json"]})
    = Returns (JArray []).
Proof.
  split.
  - apply (proj1 (proj2
             (favorites_init_never_fails JsonCore.JSON_parse_core (Items ∅)))).
    reflexivity.
  - apply (proj1 (proj2 (proj2
             (favorites_init_never_fails JsonCore.JSON_parse_core
                (Items {[STORAGE_KEY := "{not json"]}))))) with "{not json".
    + vm_compute. reflexivity.
    + vm_compute. reflexivity.
Defined.

(** C10, as stated, fails on the storage that holds the text of the empty
    array: the empty list is returned although the key is present, the
    stored string is not empty and parsing does not throw. *)
Lemma favorites_init_stored_empty_array :
  let ls := Items {[STORAGE_KEY := "[]"]} in
  ¬ (favorites_init JsonCore.JSON_parse_core ls = Returns (JArray []) →
     getItem ls STORAGE_KEY = Returns None
     ∨ getItem ls STORAGE_KEY = Returns (Some EmptyString)
     ∨ ∃ raw, getItem ls STORAGE_KEY = Returns (Some raw)
              ∧ throws (JsonCore.JSON_parse_core raw) = true).
Proof.
  intros ls H. destruct H as [H|[H|(raw & H & Hraw)]].
  - vm_compute. reflexivity.
  - vm_compute in H. discriminate.
  - vm_compute in H. discriminate.
  - vm_compute in H. injection H as <-. vm_compute in Hraw. discriminate.
Qed.

(** C10, amended. The initialiser does not validate what [JSON.parse]
    returns: a stored non-empty string that parses is answered with the
    parsed value as it is, also when that value is not a list of strings,
    and then the result is not the empty list.  The empty list is returned
    only when the key is absent, the stored string is empty, reading the
    storage or parsing throws, or the parsed value is itself the empty
    list. *)
Theorem favorites_init_unvalidated
    (JSON_parse : string → result json) (ls : Storage) (raw : string)
    (v : json) :
  (getItem ls STORAGE_KEY = Returns (Some raw) → raw ≠ EmptyString →
   JSON_parse raw = Returns v →
     favorites_init JSON_parse ls = Returns v
     ∧ (as_string_list v = None →
          favorites_init JSON_parse ls ≠ Returns (JArray []))) ∧
  (favorites_init JSON_parse ls = Returns (JArray []) →
     getItem ls STORAGE_KEY = Returns None
     ∨ getItem ls STORAGE_KEY = Returns (Some EmptyString)
     ∨ throws (getItem ls STORAGE_KEY) = true
     ∨ ∃ raw', getItem ls STORAGE_KEY = Returns (Some raw')
               ∧ (throws (JSON_parse raw') = true
                  ∨ JSON_parse raw' = Returns (JArray []))).
Proof.
  destruct ls as [|m]; simpl.
  { split; [discriminate|]. intros _. right; right; left. reflexivity. }
  destruct (m !! STORAGE_KEY) as [s|] eqn:Hm.
  2:{ split; [discriminate|]. intros _. now left. }
  rewrite (favorites_init_stored JSON_parse m s Hm).
  destruct (String.eqb_spec s EmptyString) as [->|Hne].
  { split; [intros [= <-] Hraw; now destruct Hraw|].
    intros _. right; left. reflexivity. }
  split.
  - intros [= <-] _ Hv. rewrite Hv. split; [reflexivity|].
    intros Hlist [= ->]. discriminate.
  - intros Hinit. right; right; right. exists s. split; [reflexivity|].
    destruct (JSON_parse s) as [w|e]; [right|left; reflexivity].
    congruence.
Qed.

Lemma favorites_init_unvalidated_witness :
  favorites_init JsonCore.JSON_parse_core (Items {[STORAGE_KEY := "42"]})
  = Returns (JNumber (of_Z 42))
  ∧ favorites_init JsonCore.JSON_parse_core (Items {[STORAGE_KEY := "null"]})
    ≠ Returns (JArray []).
Proof.
  split.
  - apply (proj1 (favorites_init_unvalidated JsonCore.JSON_parse_core
                    (Items {[STORAGE_KEY := "42"]}) "42" (JNumber (of_Z 42)))).
    + vm_compute. reflexivity.
    + discriminate.
    + vm_compute. reflexivity.
  - apply (proj1 (favorites_init_unvalidated JsonCore.JSON_parse_core
                    (Items {[STORAGE_KEY := "null"]}) "null" JNull)).
    + vm_compute. reflexivity.
    + discriminate.
    + vm_compute. reflexivity.
    + reflexivity.
Defined.

(** ** Readings that are not valid indices *)

(** C8, as stated, fails on the negative index -5: it is classified, as
    "Good", and is not given the result of "no reading". *)
Lemma negative_index_is_classified :
  JsNumber.lt (of_Z (-5)) (of_Z 0) = true
  ∧ advice (Some (of_Z (-5))) ≠ advice None
  ∧ levelLabel (Some (of_Z (-5))) = "Good".
Proof. split; [reflexivity|]. split; [discriminate|reflexivity]. Qed.

(** C8, amended. A negative index is not turned into "no reading": it is
    stored as it is, classified "Good" without mask, and the estimator
    gives 0.  A reading that is not a number and whose numeric conversion is
    NaN is stored as "no reading", for which there is no advice and the
    estimator gives 0. *)
Theorem invalid_reading_handling
    (Number : option json → number) (v : number) (d : option json) :
  (JsNumber.lt v (of_Z 0) = true →
     fetchAndSet_aqi Number (Some (JNumber v)) = Some v
     ∧ advice (Some v) = Some (getHealthAdvice v)
     ∧ level (getHealthAdvice v) = "Good"
     ∧ mask (getHealthAdvice v) = false
     ∧ getCigaretteEquivalent (Some v) = 0) ∧
  ((∀ n, d ≠ Some (JNumber n)) → JsNumber.is_nan (Number d) = true →
     fetchAndSet_aqi Number d = None
     ∧ advice (fetchAndSet_aqi Number d) = None
     ∧ getCigaretteEquivalent (fetchAndSet_aqi Number d) = 0).
Proof.
  split.
  - intros Hneg.
    assert ((v <=? of_Z 50)%num = true) as H50.
    { destruct v as [| | |q]; simpl in *; try congruence.
      apply negb_true_iff, Qle_bool_false in Hneg.
      apply Qle_bool_iff. apply Qlt_le_weak.
      eapply Qlt_trans; [exact Hneg|reflexivity]. }
    destruct (proj1 (getHealthAdvice_band v) H50) as [Hl Hm].
    repeat split; try assumption.
    unfold getCigaretteEquivalent. now rewrite H50.
  - intros Hd Hnan.
    assert (fetchAndSet_aqi Number d = None) as ->; [|repeat split].
    unfold fetchAndSet_aqi.
    destruct d as [[| | n | | |]|]; try (now destruct (Hd n));
      destruct (Number _); simpl in *; congruence.
Qed.

Lemma invalid_reading_handling_witness :
  level (getHealthAdvice (of_Z (-5))) = "Good"
  ∧ fetchAndSet_aqi NumberCore.Number_core (Some (JString "-")) = None.
Proof.
  split.
  - apply (proj1 (invalid_reading_handling NumberCore.Number_core
                    (of_Z (-5)) None)).
    reflexivity.
  - apply (proj2 (invalid_reading_handling NumberCore.Number_core
                    (of_Z 0) (Some (JString "-")))).
    + discriminate.
    + reflexivity.
Defined.

(** C9. Without a reading there is no advice at all, so neither a tier nor
    an advisory, the tier label is empty, and the estimator gives 0. *)
Theorem no_reading_placeholder :
  advice None = None
  ∧ level <$> advice None = None
  ∧ action <$> advice None = None
  ∧ levelLabel None = EmptyString
  ∧ getCigaretteEquivalent None = 0.
Proof. repeat split. Qed.

(** The page then shows a prompt where the advisory would be. *)
Lemma actionText_no_reading :
  actionText None
  = "Search a city or allow location access to see recommendations.".
Proof. reflexivity. Qed.

(** NaN, which the stored reading never is, would fail every test and fall
    through to the last branch of both functions. *)
Lemma nan_falls_through :
  level (getHealthAdvice NaN) = "Hazardous"
  ∧ getCigaretteEquivalent (Some NaN) = 13.
Proof. split; reflexivity. Qed.

(** * Further properties of the code *)

(** ** Tiers, colours and the estimator *)

Lemma le_trans (x y z : number) :
  JsNumber.le x y = true → JsNumber.le y z = true → JsNumber.le x z = true.
Proof.
  destruct x, y, z; simpl; try congruence.
  rewrite !Qle_bool_iff. apply Qle_trans.
Qed.

Lemma not_le_mono (v w c : number) :
  JsNumber.le v w = true → JsNumber.le v c = false → JsNumber.le w c = false.
Proof.
  intros Hvw Hv. destruct (JsNumber.le w c) eqn:Hw; [|reflexivity].
  rewrite (le_trans v w c Hvw Hw) in Hv. discriminate.
Qed.

(** Uses [v <= a] to settle the tests of [v] against the larger
    thresholds. *)
Ltac use_le v a H :=
  try rewrite (le_trans_const v a 100 ltac:(lia) H);
  try rewrite (le_trans_const v a 150 ltac:(lia) H);
  try rewrite (le_trans_const v a 200 ltac:(lia) H);
  try rewrite (le_trans_const v a 300 ltac:(lia) H);
  try rewrite (le_trans_const v a 400 ltac:(lia) H).

(** Splits on the tests of [v] against the thresholds, in the order of the
    code, and drops the combinations that no number produces. *)
Ltac split_bands v :=
  let H1 := fresh "Hband" in
  destruct (JsNumber.le v (of_Z 50)) eqn:H1; [use_le v 50 H1|];
  [|let H2 := fresh "Hband" in
    destruct (JsNumber.le v (of_Z 100)) eqn:H2; [use_le v 100 H2|];
    [|let H3 := fresh "Hband" in
      destruct (JsNumber.le v (of_Z 150)) eqn:H3; [use_le v 150 H3|];
      [|let H4 := fresh "Hband" in
        destruct (JsNumber.le v (of_Z 200)) eqn:H4; [use_le v 200 H4|];
        [|let H5 := fresh "Hband" in
          destruct (JsNumber.le v (of_Z 300)) eqn:H5; [use_le v 300 H5|];
          [|let H6 := fresh "Hband" in
            destruct (JsNumber.le v (of_Z 400)) eqn:H6]]]]].

(** X1. The colour of the gauge follows the tier: two readings are drawn in
    the same colour exactly when they are given the same tier. *)
Theorem aqiColor_matches_level (v w : number) :
  aqiColor v = aqiColor w
  ↔ level (getHealthAdvice v) = level (getHealthAdvice w).
Proof.
  unfold aqiColor, getHealthAdvice.
  split_bands v; split_bands w; simpl; split; intros H;
    first [reflexivity | discriminate H].
Qed.

(** X2. Each tier is given on exactly one band: "Good" up to 50, "Moderate"
    above 50 up to 100, and so on; "Hazardous" is given to whatever is not
    at most 300, NaN included. *)
Theorem getHealthAdvice_level_iff (v : number) :
  (level (getHealthAdvice v) = "Good" ↔ (v <=? of_Z 50)%num = true) ∧
  (level (getHealthAdvice v) = "Moderate"
     ↔ (v <=? of_Z 50)%num = false ∧ (v <=? of_Z 100)%num = true) ∧
  (level (getHealthAdvice v) = "Unhealthy for Sensitive Groups"
     ↔ (v <=? of_Z 100)%num = false ∧ (v <=? of_Z 150)%num = true) ∧
  (level (getHealthAdvice v) = "Unhealthy"
     ↔ (v <=? of_Z 150)%num = false ∧ (v <=? of_Z 200)%num = true) ∧
  (level (getHealthAdvice v) = "Very Unhealthy"
     ↔ (v <=? of_Z 200)%num = false ∧ (v <=? of_Z 300)%num = true) ∧
  (level (getHealthAdvice v) = "Hazardous" ↔ (v <=? of_Z 300)%num = false).
Proof.
  unfold getHealthAdvice.
  split_bands v; simpl; repeat split; intros;
    repeat match goal with H : _ ∧ _ |- _ => destruct H end;
    first [reflexivity | discriminate | congruence].
Qed.

(** X3. A higher index never lowers the estimate and never withdraws the
    mask recommendation. *)
Theorem severity_monotone (v w : number) :
  (v <=? w)%num = true →
  getCigaretteEquivalent (Some v) <= getCigaretteEquivalent (Some w)
  ∧ (mask (getHealthAdvice v) = true → mask (getHealthAdvice w) = true).
Proof.
  intros Hvw. unfold getCigaretteEquivalent, getHealthAdvice.
  split_bands v; simpl;
    repeat match goal with
    | H : JsNumber.le v ?c = false |- _ =>
        apply (not_le_mono v w c Hvw) in H
    end;
    split_bands w; simpl; try congruence; split; first [lia | congruence].
Qed.

Lemma severity_monotone_witness :
  getCigaretteEquivalent (Some (of_Z 120))
  <= getCigaretteEquivalent (Some (of_Z 260)).
Proof.
  apply (severity_monotone (of_Z 120) (of_Z 260)). reflexivity.
Defined.

(** X4. The estimate goes with the tier: 0 for "Good", 2 for "Moderate",
    5 for "Unhealthy for Sensitive Groups" and "Unhealthy", 8 for "Very
    Unhealthy", 13 for "Hazardous", and no other value is ever returned. *)
Theorem estimate_by_level (v : number) :
  (getCigaretteEquivalent (Some v) = 0
     ↔ level (getHealthAdvice v) = "Good") ∧
  (getCigaretteEquivalent (Some v) = 2
     ↔ level (getHealthAdvice v) = "Moderate") ∧
  (getCigaretteEquivalent (Some v) = 5
     ↔ level (getHealthAdvice v) = "Unhealthy for Sensitive Groups"
       ∨ level (getHealthAdvice v) = "Unhealthy") ∧
  (getCigaretteEquivalent (Some v) = 8
     ↔ level (getHealthAdvice v) = "Very Unhealthy") ∧
  (getCigaretteEquivalent (Some v) = 13
     ↔ level (getHealthAdvice v) = "Hazardous") ∧
  getCigaretteEquivalent (Some v) ∈ [0; 2; 5; 8; 13].
Proof.
  unfold getCigaretteEquivalent, getHealthAdvice.
  split_bands v; simpl; repeat split; intros;
    repeat match goal with H : _ ∨ _ |- _ => destruct H end;
    first [ reflexivity | discriminate | lia | (left; reflexivity)
          | (right; reflexivity) | set_solver ].
Qed.

(** ** The stored reading *)

(** X5. What [fetchAndSet] stores as the index: a reading of type number is
    stored as it is; any other reading is stored as its numeric conversion,
    unless that is NaN or zero, in which case "no reading" is stored.  So
    the stored index is NaN only for a reading that is the number NaN. *)
Theorem fetchAndSet_aqi_stored (Number : option json → number)
    (d : option json) :
  (∀ n, d = Some (JNumber n) → fetchAndSet_aqi Number d = Some n) ∧
  ((∀ n, d ≠ Some (JNumber n)) →
     fetchAndSet_aqi Number d
     = if JsNumber.truthy (Number d) then Some (Number d) else None) ∧
  (∀ x, fetchAndSet_aqi Number d = Some x → d ≠ Some (JNumber NaN) →
     JsNumber.is_nan x = false).
Proof.
  split; [|split].
  - intros n ->. reflexivity.
  - intros Hd. unfold fetchAndSet_aqi.
    destruct d as [[| | n | | |]|]; try reflexivity. now destruct (Hd n).
  - intros x Hx Hd. unfold fetchAndSet_aqi in Hx.
    assert (JsNumber.truthy x = true → JsNumber.is_nan x = false) as Ht
      by (destruct x; simpl; congruence).
    destruct d as [[| | n | | |]|];
      try (destruct (JsNumber.truthy (Number _)) eqn:E;
           [injection Hx as <-; exact (Ht E)|discriminate]).
    injection Hx as <-. destruct n; try reflexivity. now destruct Hd.
Qed.

Lemma fetchAndSet_aqi_stored_witness :
  fetchAndSet_aqi NumberCore.Number_core (Some (JString "0")) = None
  ∧ fetchAndSet_aqi NumberCore.Number_core (Some (JString "57"))
    = Some (of_Z 57).
Proof.
  split.
  - rewrite (proj1 (proj2 (fetchAndSet_aqi_stored NumberCore.Number_core
                             (Some (JString "0"))))); [reflexivity|].
    discriminate.
  - rewrite (proj1 (proj2 (fetchAndSet_aqi_stored NumberCore.Number_core
                             (Some (JString "57"))))); [reflexivity|].
    discriminate.
Defined.

(** ** The needle of the gauge *)

Section GaugeFacts.

Local Open Scope Q_scope.

Lemma Qle_bool_total (x y : Q) : Qle_bool x y = false → Qle_bool y x = true.
Proof.
  intros H. apply Qle_bool_false in H. apply Qle_bool_iff.
  now apply Qlt_le_weak.
Qed.

End GaugeFacts.

(** X6. The value that positions the needle is clamped: it lies between 0
    and 500 for every reading that is not NaN, equals the reading inside
    that range, is 0 for "no reading" and for a reading at or below 0, and
    500 for a reading at or above 500.  A NaN reading stays NaN. *)
Theorem gaugeRotation_capped_bounds (aqi : option number) :
  (aqi ≠ Some NaN →
     (of_Z 0 <=? gaugeRotation_capped aqi)%num = true
     ∧ (gaugeRotation_capped aqi <=? of_Z 500)%num = true) ∧
  (∀ v, aqi = Some v →
     (of_Z 0 <=? v)%num = true → (v <=? of_Z 500)%num = true →
     (gaugeRotation_capped aqi <=? v)%num = true
     ∧ (v <=? gaugeRotation_capped aqi)%num = true) ∧
  (∀ v, aqi = Some v → (v <=? of_Z 0)%num = true →
     (gaugeRotation_capped aqi <=? of_Z 0)%num = true) ∧
  (∀ v, aqi = Some v → (of_Z 500 <=? v)%num = true →
     (of_Z 500 <=? gaugeRotation_capped aqi)%num = true) ∧
  gaugeRotation_capped None = of_Z 0 ∧
  gaugeRotation_capped (Some NaN) = NaN.
Proof.
  split; [|split; [|split; [|split; [|split; reflexivity]]]].
  - intros Hnan. destruct aqi as [[| | |q]|]; try (split; reflexivity).
    + now destruct Hnan.
    + unfold gaugeRotation_capped, Math_min, Math_max, of_Z. simpl.
      destruct (Qle_bool (inject_Z 500) q) eqn:E1; simpl.
      * split; reflexivity.
      * destruct (Qle_bool (inject_Z 0) q) eqn:E2; simpl.
        -- split; [exact E2|now apply Qle_bool_total].
        -- split; reflexivity.
  - intros v -> H0 H500. destruct v as [| | |q]; simpl in *; try discriminate.
    unfold gaugeRotation_capped, Math_min, Math_max, of_Z. simpl.
    destruct (Qle_bool (inject_Z 500) q) eqn:E1; simpl.
    + split; assumption.
    + rewrite H0. simpl. split; apply Qle_bool_iff, Qle_refl.
  - intros v -> H0. destruct v as [| | |q]; simpl in *; try discriminate;
      try reflexivity.
    unfold gaugeRotation_capped, Math_min, Math_max, of_Z. simpl.
    assert (Qle_bool (inject_Z 500) q = false) as ->.
    { apply Qle_bool_false. apply Qle_bool_iff in H0.
      eapply Qle_lt_trans; [exact H0|reflexivity]. }
    simpl. destruct (Qle_bool (inject_Z 0) q); simpl;
      [exact H0|reflexivity].
  - intros v -> H500. destruct v as [| | |q]; simpl in *; try discriminate;
      try reflexivity.
    unfold gaugeRotation_capped, Math_min, Math_max, of_Z. simpl.
    rewrite H500. reflexivity.
Qed.

Lemma gaugeRotation_capped_bounds_witness :
  (gaugeRotation_capped (Some (of_Z 700)) <=? of_Z 500)%num = true
  ∧ (of_Z 120 <=? gaugeRotation_capped (Some (of_Z 120)))%num = true.
Proof.
  split.
  - apply (proj1 (gaugeRotation_capped_bounds (Some (of_Z 700)))).
    discriminate.
  - apply (proj1 (proj2 (gaugeRotation_capped_bounds (Some (of_Z 120))))
             (of_Z 120)); reflexivity.
Defined.

(** ** Removing and toggling favorites *)

Lemma filter_ne_comm (a b : string) (l : list string) :
  filter_ne a (filter_ne b l) = filter_ne b (filter_ne a l).
Proof.
  unfold filter_ne. induction l as [|x l IH]; [reflexivity|].
  destruct (decide (x = a)) as [Ha|Ha], (decide (x = b)) as [Hb|Hb];
    repeat first
      [ rewrite filter_cons_True by assumption
      | rewrite filter_cons_False by (intros H; now apply H) ];
    congruence.
Qed.

Lemma filter_ne_idem (a : string) (l : list string) :
  filter_ne a (filter_ne a l) = filter_ne a l.
Proof.
  apply filter_ne_absent. intros H.
  apply elem_of_filter_ne in H as [H _]. now apply H.
Qed.



(** X8. Removals can be done in any order and repeating one changes
    nothing. *)
Theorem removeFavorite_comm_idem (a b : string) (prev : list string) :
  removeFavorite a (removeFavorite b prev)
  = removeFavorite b (removeFavorite a prev)
  ∧ removeFavorite a (removeFavorite a prev) = removeFavorite a prev.
Proof.
  unfold removeFavorite. split; [apply filter_ne_comm|apply filter_ne_idem].
Qed.

(** X9. Toggling a name twice.  A name that was absent leaves the first
    nine entries: the list itself when it had fewer than ten entries, and
    otherwise the list without its tenth and later entries.  A name that was
    present ends up in front of the first nine of the others. *)
Theorem toggleFavorite_twice (name : string) (prev : list string) :
  (name ∉ prev →
     toggleFavorite name (toggleFavorite name prev) = take 9 prev
     ∧ ((length prev < 10)%nat →
          toggleFavorite name (toggleFavorite name prev) = prev)) ∧
  (name ∈ prev →
     toggleFavorite name (toggleFavorite name prev)
     = name :: take 9 (removeFavorite name prev)).
Proof.
  split.
  - intros Hout.
    assert (toggleFavorite name (toggleFavorite name prev) = take 9 prev)
      as Heq.
    { rewrite (toggleFavorite_absent name prev Hout).
      rewrite toggleFavorite_present by left.
      rewrite filter_ne_head. apply filter_ne_absent.
      intros Hin. exact (Hout (subseteq_take 9 prev name Hin)). }
    split; [exact Heq|].
    intros Hlen. rewrite Heq. apply take_ge. lia.
  - intros Hin. rewrite (toggleFavorite_present name prev Hin).
    apply toggleFavorite_absent.
    intros H. apply elem_of_filter_ne in H as [H _]. now apply H.
Qed.

Lemma toggleFavorite_twice_witness :
  toggleFavorite "Kyiv" (toggleFavorite "Kyiv" ["Rome"; "Oslo"])
  = ["Rome"; "Oslo"]
  ∧ toggleFavorite "Oslo" (toggleFavorite "Oslo" ["Rome"; "Oslo"])
    = ["Oslo"; "Rome"].
Proof.
  split.
  - apply (proj1 (toggleFavorite_twice "Kyiv" ["Rome"; "Oslo"])).
    + apply (bool_decide_unpack _). vm_compute. exact I.
    + simpl. lia.
  - apply (proj2 (toggleFavorite_twice "Oslo" ["Rome"; "Oslo"])).
    apply (bool_decide_unpack _). vm_compute. exact I.
Defined.

(** X10. The buttons never save a place without a name: a click on the
    star while no place is shown changes nothing, and a list that does not
    hold the empty name, has no duplicates and at most ten entries stays so
    under every run of clicks. *)
Theorem click_keeps_names (acts : list FavAction) (start : list string) :
  (EmptyString ∉ start → EmptyString ∉ foldl click start acts) ∧
  (favorites_ok start → favorites_ok (foldl click start acts)) ∧
  click start (Toggle EmptyString) = start.
Proof.
  split; [|split; [|reflexivity]].
  - revert start. induction acts as [|a acts IH]; intros start Hs; [exact Hs|].
    simpl. apply IH. destruct a as [n|n]; simpl.
    + unfold toggleClick. destruct (String.eqb_spec n EmptyString) as [->|Hn];
        [exact Hs|].
      unfold toggleFavorite, slice0.
      destruct (includes start n).
      * rewrite elem_of_filter_ne. tauto.
      * intros Hin. apply (subseteq_take 10 (n :: start)) in Hin.
        apply elem_of_cons in Hin as [Heq|Hin]; [now apply Hn|now apply Hs].
    + unfold removeFavorite. rewrite elem_of_filter_ne. tauto.
  - revert start. induction acts as [|a acts IH]; intros start Hs; [exact Hs|].
    simpl. apply IH. destruct a as [n|n]; simpl.
    + unfold toggleClick. destruct (String.eqb n EmptyString); [exact Hs|].
      now apply favorites_ok_toggle.
    + now apply favorites_ok_filter_ne.
Qed.

Lemma click_keeps_names_witness :
  EmptyString ∉ foldl click ["Rome"] [Toggle EmptyString; Toggle "Oslo"].
Proof.
  apply (click_keeps_names [Toggle EmptyString; Toggle "Oslo"] ["Rome"]).
  apply (bool_decide_unpack _). vm_compute. exact I.
Defined.

(** ** Saving and loading *)

(** X11. What is saved is what the next load returns: when the browser
    accepts the write and the text that [JSON.stringify] gives for the
    favorites is not empty and parses back to them, the initialiser run on
    the storage left by the saving effect returns these favorites. *)
Theorem save_then_load (JSON_parse : string → result json)
    (JSON_stringify : json → string) (quota_ok : gmap string string → bool)
    (favorites : json) (m : gmap string string) :
  quota_ok (<[STORAGE_KEY := JSON_stringify favorites]> m) = true →
  JSON_stringify favorites ≠ EmptyString →
  JSON_parse (JSON_stringify favorites) = Returns favorites →
  favorites_init JSON_parse
    (saveFavorites JSON_stringify quota_ok favorites (Items m))
  = Returns favorites.
Proof.
  intros Hfits Hne Hparse. unfold saveFavorites. simpl. rewrite Hfits.
  rewrite (favorites_init_stored JSON_parse _ (JSON_stringify favorites))
    by apply lookup_insert_eq.
  destruct (String.eqb_spec (JSON_stringify favorites) EmptyString) as [E|_];
    [now destruct Hne|].
  now rewrite Hparse.
Qed.

Lemma save_then_load_witness :
  favorites_init JsonCore.JSON_parse_core
    (saveFavorites JsonPrint.JSON_stringify_core
       (λ m, bool_decide (size m ≤ 8)%nat)
       (json_of_names ["Paris"; "Rome"]) (Items ∅))
  = Returns (json_of_names ["Paris"; "Rome"]).
Proof.
  apply (save_then_load JsonCore.JSON_parse_core
           JsonPrint.JSON_stringify_core (λ m, bool_decide (size m ≤ 8)%nat)
           (json_of_names ["Paris"; "Rome"]) ∅).
  - vm_compute. reflexivity.
  - vm_compute. discriminate.
  - vm_compute. reflexivity.
Defined.

(** X12. The saving effect never fails and touches one key only: every other
    key reads as before, whatever happens to the write.  A write that the
    browser accepts replaces what an earlier save left.  On a storage that
    is denied, and when the quota is exceeded, the storage is left as it
    was. *)
Theorem saveFavorites_effect (JSON_stringify : json → string)
    (quota_ok : gmap string string → bool) (v1 v2 : json) (ls : Storage) :
  (∀ key, key ≠ STORAGE_KEY →
     getItem (saveFavorites JSON_stringify quota_ok v1 ls) key
     = getItem ls key) ∧
  (∀ m, ls = Items m →
     quota_ok (<[STORAGE_KEY := JSON_stringify v2]> m) = true →
     saveFavorites JSON_stringify quota_ok v2
       (saveFavorites JSON_stringify quota_ok v1 ls)
     = Items (<[STORAGE_KEY := JSON_stringify v2]> m)) ∧
  (∀ m, ls = Items m →
     quota_ok (<[STORAGE_KEY := JSON_stringify v1]> m) = false →
     saveFavorites JSON_stringify quota_ok v1 ls = ls) ∧
  saveFavorites JSON_stringify quota_ok v1 Denied = Denied.
Proof.
  split; [|split; [|split; [|reflexivity]]].
  - intros key Hkey. destruct ls as [|m]; [reflexivity|].
    unfold saveFavorites. simpl.
    destruct (quota_ok _); [|reflexivity].
    simpl. f_equal. now apply lookup_insert_ne.
  - intros m -> Hfits. unfold saveFavorites at 2. simpl.
    destruct (quota_ok (<[STORAGE_KEY := JSON_stringify v1]> m)).
    + unfold saveFavorites. simpl. rewrite insert_insert_eq.
      now rewrite Hfits.
    + unfold saveFavorites. simpl. now rewrite Hfits.
  - intros m -> Hfull. unfold saveFavorites. simpl. now rewrite Hfull.
Qed.

Lemma saveFavorites_effect_witness :
  getItem (saveFavorites JsonPrint.JSON_stringify_core
             (λ m, bool_decide (size m ≤ 8)%nat)
             (json_of_names ["Paris"]) (Items {["theme" := "dark"]})) "theme"
  = Returns (Some "dark")
  ∧ saveFavorites JsonPrint.JSON_stringify_core (λ _, false)
      (json_of_names ["Paris"]) (Items ∅) = Items ∅.
Proof.
  split.
  - rewrite (proj1 (saveFavorites_effect JsonPrint.JSON_stringify_core
                      (λ m, bool_decide (size m ≤ 8)%nat)
                      (json_of_names ["Paris"]) JNull
                      (Items {["theme" := "dark"]})) "theme").
    + vm_compute. reflexivity.
    + discriminate.
  - apply (proj1 (proj2 (proj2
             (saveFavorites_effect JsonPrint.JSON_stringify_core (λ _, false)
                (json_of_names ["Paris"]) JNull (Items ∅)))) ∅);
      reflexivity.
Defined.

(** ** The forecast strip *)

Section ForecastFacts.

Import Forecast.

Variable daily : Daily.

Implicit Types (f : list ForecastDay) (d : string).

Lemma existing_spec f d : existing f d = true ↔ d ∈ map day f.
Proof.
  unfold existing. induction f as [|x f IH]; simpl.
  - split; [discriminate|]. intros H. now apply elem_of_nil in H.
  - rewrite orb_true_iff, IH, elem_of_cons.
    destruct (String.eqb_spec (day x) d); split; intros [H|H]; auto;
      discriminate.
Qed.

Lemma new_day_day d (x : ForecastDay) :
  new_day daily d = Normal x → day x = d ∧ aqi x = None.
Proof.
  unfold new_day.
  destruct (avg_of daily "pm25" d); simpl; [|discriminate].
  destruct (avg_of daily "pm10" d); simpl; [|discriminate].
  destruct (avg_of daily "o3" d); simpl; [|discriminate].
  intros [= <-]. split; reflexivity.
Qed.


Lemma visit_days f d f' :
  visit daily f d = Normal f' →
  map day f' = (if bool_decide (d ∈ map day f) then map day f
                else map day f ++ [d])
  ∧ (length f ≤ length f' ≤ S (length f))%nat
  ∧ (∀ x, x ∈ f' → x ∈ f ∨ new_day daily d = Normal x).
Proof.
  unfold visit. destruct (existing f d) eqn:E.
  - intros [= <-]. apply existing_spec in E.
    rewrite bool_decide_eq_true_2 by exact E. repeat split; auto with lia.
  - destruct (new_day daily d) as [x|] eqn:Hx; simpl; [|discriminate].
    intros [= <-].
    assert (d ∉ map day f) as Hd.
    { intros H. apply existing_spec in H. congruence. }
    rewrite bool_decide_eq_false_2 by exact Hd.
    rewrite map_app, length_app. simpl.
    rewrite (proj1 (new_day_day d x Hx)). repeat split; try lia.
    intros y Hy. apply elem_of_app in Hy as [Hy|Hy]; [now left|].
    apply list_elem_of_singleton in Hy as ->. now right.
Qed.

Lemma first_seen_prefix (seen stream : list string) :
  ∃ t, first_seen seen stream = seen ++ t.
Proof.
  revert seen. induction stream as [|d rest IH]; intros seen; simpl.
  - exists []. now rewrite app_nil_r.
  - destruct (bool_decide (d ∈ seen)); [apply IH|].
    destruct (IH (seen ++ [d])) as [t ->]. exists (d :: t).
    now rewrite <- app_assoc.
Qed.

Lemma first_seen_app (seen s1 s2 : list string) :
  first_seen seen (s1 ++ s2) = first_seen (first_seen seen s1) s2.
Proof.
  revert seen. induction s1 as [|d s1 IH]; intros seen; [reflexivity|].
  simpl. apply IH.
Qed.



Lemma take_3_full (l t : list string) :
  (3 ≤ length l)%nat → take 3 (l ++ t) = take 3 l.
Proof. intros H. now apply take_app_le. Qed.

(** The inner loop adds the days that are new, in order, up to three. *)
Lemma scan_entries_days (entries : list DailyEntry) f f' :
  (length f < 3)%nat →
  scan_entries daily entries f = Normal f' →
  map day f' = take 3 (first_seen (map day f) (map entry_day entries))
  ∧ (∀ x, x ∈ f' → x ∈ f ∨ ∃ d, new_day daily d = Normal x).
Proof.
  revert f. induction entries as [|e rest IH]; intros f Hlen;
    cbn [scan_entries map first_seen].
  - intros [= <-]. split; [|auto].
    rewrite take_ge; [reflexivity|]. rewrite length_map. lia.
  - destruct (visit daily f (entry_day e)) as [f1|] eqn:Hv;
      cbn [andThen]; [|discriminate].
    destruct (visit_days _ _ _ Hv) as (Hdays & Hl & Hfrom).
    rewrite <- Hdays.
    destruct (3 <=? length f1)%nat eqn:Hfull.
    + intros [= <-]. apply Nat.leb_le in Hfull. split.
      * destruct (first_seen_prefix (map day f1) (map entry_day rest))
          as [t ->].
        rewrite take_3_full by (rewrite length_map; lia).
        rewrite take_ge; [reflexivity|]. rewrite length_map. lia.
      * intros x Hx. destruct (Hfrom x Hx); eauto.
    + apply Nat.leb_gt in Hfull. intros Hrest.
      destruct (IH f1 Hfull Hrest) as [Hd Hf]. split; [exact Hd|].
      intros x Hx. destruct (Hf x Hx) as [Hin|?]; [|now right].
      destruct (Hfrom x Hin); eauto.
Qed.

Lemma days_read_cons (k : string) (keys : list string) :
  days_read daily (k :: keys)
  = match prop daily k with
    | Some (Series arr) => map entry_day (take 3 arr)
    | _ => []
    end ++ days_read daily keys.
Proof. reflexivity. Qed.

(** The outer loop does the same over the arrays, key after key. *)
Lemma scan_keys_days (keys : list string) f f' :
  (length f < 3)%nat →
  scan_keys daily keys f = Normal f' →
  map day f' = take 3 (first_seen (map day f) (days_read daily keys))
  ∧ (∀ x, x ∈ f' → x ∈ f ∨ ∃ d, new_day daily d = Normal x).
Proof.
  revert f. induction keys as [|k rest IH]; intros f Hlen.
  - intros [= <-]. split; [|auto]. cbn [days_read map concat first_seen].
    rewrite take_ge; [reflexivity|]. rewrite length_map. lia.
  - rewrite days_read_cons. cbn [scan_keys].
    destruct (prop daily k) as [[arr| |]|]; try apply (IH f Hlen).
    destruct (scan_entries daily (take 3 arr) f) as [f1|] eqn:Hs;
      cbn [andThen]; [|discriminate].
    destruct (scan_entries_days _ _ _ Hlen Hs) as [Hd Hfrom].
    rewrite first_seen_app.
    set (Y := first_seen (map day f) (map entry_day (take 3 arr))) in *.
    pose proof (f_equal length Hd) as HlenY.
    rewrite length_map, length_take in HlenY.
    destruct (3 <=? length f1)%nat eqn:Hfull.
    + intros [= <-]. apply Nat.leb_le in Hfull. split; [|exact Hfrom].
      destruct (first_seen_prefix Y (days_read daily rest)) as [t ->].
      rewrite take_3_full; [exact Hd|lia].
    + apply Nat.leb_gt in Hfull. intros Hrest.
      assert (map day f1 = Y) as HY.
      { rewrite Hd. apply take_ge. lia. }
      destruct (IH f1 Hfull Hrest) as [Hd' Hf]. rewrite HY in Hd'.
      split; [exact Hd'|].
      intros x Hx. destruct (Hf x Hx) as [Hin|?]; [|now right].
      now apply Hfrom.
Qed.




End ForecastFacts.

Lemma first_seen_elem (seen stream : list string) (x : string) :
  x ∈ Forecast.first_seen seen stream → x ∈ seen ∨ x ∈ stream.
Proof.
  revert seen. induction stream as [|d rest IH]; intros seen; simpl.
  - now left.
  - intros H. apply IH in H as [H|H]; [|right; now right].
    destruct (bool_decide (d ∈ seen)); [now left|].
    apply elem_of_app in H as [H|H]; [now left|].
    apply list_elem_of_singleton in H as ->. right; left.
Qed.

Lemma new_day_fields (daily : Forecast.Daily) (d : string)
    (x : Forecast.ForecastDay) :
  Forecast.new_day daily d = Forecast.Normal x →
  Forecast.day x = d
  ∧ Forecast.avg_of daily "pm25" d = Forecast.Normal (Forecast.pm25 x)
  ∧ Forecast.avg_of daily "pm10" d = Forecast.Normal (Forecast.pm10 x)
  ∧ Forecast.avg_of daily "o3" d = Forecast.Normal (Forecast.o3 x)
  ∧ Forecast.aqi x = None.
Proof.
  unfold Forecast.new_day.
  destruct (Forecast.avg_of daily "pm25" d); simpl; [|discriminate].
  destruct (Forecast.avg_of daily "pm10" d); simpl; [|discriminate].
  destruct (Forecast.avg_of daily "o3" d); simpl; [|discriminate].
  intros [= <-]. repeat split; reflexivity.
Qed.

(** What a completed run of the loops has built. *)
Lemma forecast_built (daily : Forecast.Daily)
    (r : option (list Forecast.ForecastDay)) :
  Forecast.fetchAndSet_forecast (Some daily) = Forecast.Normal r →
  ∃ f, Forecast.scan_keys daily (map fst daily) [] = Forecast.Normal f
       ∧ r = (if (length f =? 0)%nat then None else Some f)
       ∧ map Forecast.day f
         = take 3 (Forecast.first_seen []
                     (Forecast.days_read daily (map fst daily)))
       ∧ (∀ x, x ∈ f → ∃ d, Forecast.new_day daily d = Forecast.Normal x).
Proof.
  unfold Forecast.fetchAndSet_forecast.
  destruct (Forecast.scan_keys daily (map fst daily) []) as [f|] eqn:Hs;
    cbn [Forecast.andThen]; [|discriminate].
  intros [= <-]. exists f.
  destruct (scan_keys_days daily (map fst daily) [] f ltac:(simpl; lia) Hs)
    as [Hd Hfrom].
  repeat split; [exact Hd|].
  intros x Hx. destruct (Hfrom x Hx) as [Hnil|?]; [|assumption].
  now apply elem_of_nil in Hnil.
Qed.

(** X13. The days of the forecast are the first three distinct days met
    when the arrays of [daily] are read key after key, three entries of
    each. *)
Theorem forecast_days (daily : Forecast.Daily)
    (r : option (list Forecast.ForecastDay)) :
  Forecast.fetchAndSet_forecast (Some daily) = Forecast.Normal r →
  match r with Some f => map Forecast.day f | None => [] end
  = take 3 (Forecast.first_seen []
              (Forecast.days_read daily (map fst daily))).
Proof.
  intros H. destruct (forecast_built daily r H) as (f & _ & -> & Hd & _).
  destruct f as [|x f]; [exact Hd|exact Hd].
Qed.


(** X15. Every day of the forecast is the day of one of the entries read,
    its three values are the averages looked up for that day in the arrays
    [pm25], [pm10] and [o3] (the first entry of that day, [null] when there
    is none), and its index is [null]. *)
Theorem forecast_fields (daily : Forecast.Daily)
    (f : list Forecast.ForecastDay) (x : Forecast.ForecastDay) :
  Forecast.fetchAndSet_forecast (Some daily) = Forecast.Normal (Some f) →
  x ∈ f →
  Forecast.day x ∈ Forecast.days_read daily (map fst daily)
  ∧ Forecast.avg_of daily "pm25" (Forecast.day x)
    = Forecast.Normal (Forecast.pm25 x)
  ∧ Forecast.avg_of daily "pm10" (Forecast.day x)
    = Forecast.Normal (Forecast.pm10 x)
  ∧ Forecast.avg_of daily "o3" (Forecast.day x)
    = Forecast.Normal (Forecast.o3 x)
  ∧ Forecast.aqi x = None.
Proof.
  intros H Hx.
  destruct (forecast_built daily _ H) as (f0 & _ & Hr & Hd & Hfrom).
  assert (f0 = f) as ->.
  { destruct (length f0 =? 0)%nat; [discriminate|congruence]. }
  split.
  - assert (Forecast.day x ∈ map Forecast.day f) as Hin
      by (apply list_elem_of_fmap; eauto).
    rewrite Hd in Hin. apply subseteq_take in Hin.
    apply first_seen_elem in Hin as [Hin|Hin]; [|exact Hin].
    now apply elem_of_nil in Hin.
  - destruct (Hfrom x Hx) as [d Hnew].
    destruct (new_day_fields daily d x Hnew) as (<- & ? & ? & ? & ?). auto.
Qed.



Lemma forecast_days_witness :
  let daily :=
    [("o3", Forecast.Series [Forecast.mkEntry "2024-05-01" (Some (of_Z 30));
                             Forecast.mkEntry "2024-05-02" None]);
     ("pm25", Forecast.Series [Forecast.mkEntry "2024-05-02" (Some (of_Z 80));
                               Forecast.mkEntry "2024-05-03" (Some (of_Z 95));
                               Forecast.mkEntry "2024-05-04" (Some (of_Z 60))]);
     ("uvi", Forecast.NotArray)] in
  take 3 (Forecast.first_seen [] (Forecast.days_read daily (map fst daily)))
  = ["2024-05-01"; "2024-05-02"; "2024-05-03"].
Proof.
  intros daily. rewrite <- (forecast_days daily _ eq_refl). reflexivity.
Defined.


Lemma forecast_fields_witness :
  let daily :=
    [("o3", Forecast.Series [Forecast.mkEntry "2024-05-01" (Some (of_Z 30))]);
     ("pm25", Forecast.Series
                [Forecast.mkEntry "2024-05-01" (Some (of_Z 12))])] in
  let x := Forecast.mkDay "2024-05-01" (Some (of_Z 12)) None
             (Some (of_Z 30)) None in
  Forecast.avg_of daily "pm25" (Forecast.day x)
  = Forecast.Normal (Forecast.pm25 x).
Proof.
  intros daily x.
  apply (forecast_fields daily [x] x eq_refl). left.
Defined.

(** ** The hourly series *)

Section HourlyFacts.

Import Hourly.

Variable Number : option json → number.
Variable hourLabel : nat → string.

Lemma point_of_non_null (it : json) :
  it ≠ JNull → point_of Number it = Some (make_point Number it).
Proof. destruct it; intros H; try reflexivity. now destruct H. Qed.

(** The loop pushes the points of the elements before the first [null]. *)
Lemma push_points_prefix (good tail : list json) (acc : list Point) :
  Forall (λ it, it ≠ JNull) good →
  tail = [] ∨ (∃ r, tail = JNull :: r) →
  push_points Number (good ++ tail) acc
  = acc ++ map (make_point Number) good.
Proof.
  intros Hgood Htail. revert acc.
  induction Hgood as [|it good Hit _ IH]; intros acc; simpl.
  - rewrite app_nil_r. destruct Htail as [->|[r ->]]; reflexivity.
  - rewrite (point_of_non_null it Hit), IH, <- app_assoc. reflexivity.
Qed.


End HourlyFacts.


(** X18. Without an array of hourly values, with an empty one, and with one
    whose first element is [null], the series is made of the six current
    readings, in the order pm25, pm10, o3, no2, so2, co, a missing reading
    counting as 0, labelled with the last six hours. *)
Theorem hourly_fallback (Number : option json → number)
    (hourLabel : nat → string) (hourly_pm25 : option (list json))
    (iaqi : Hourly.Pollutants) :
  hourly_pm25 = None ∨ hourly_pm25 = Some []
  ∨ (∃ rest, hourly_pm25 = Some (JNull :: rest)) →
  Hourly.fetchAndSet_hourly Number hourLabel hourly_pm25 iaqi
  = Hourly.fallback hourLabel iaqi
  ∧ map Hourly.value (Hourly.fallback hourLabel iaqi)
    = map (default (of_Z 0))
        [Hourly.pm25 iaqi; Hourly.pm10 iaqi; Hourly.o3 iaqi;
         Hourly.no2 iaqi; Hourly.so2 iaqi; Hourly.co iaqi]
  ∧ map Hourly.time (Hourly.fallback hourLabel iaqi)
    = map (λ idx, JString (hourLabel idx)) (seq 0 6).
Proof.
  intros H. split; [|split].
  - destruct H as [->|[->|[rest ->]]]; reflexivity.
  - unfold Hourly.fallback. simpl.
    destruct iaqi as [[?|] [?|] [?|] [?|] [?|] [?|]]; reflexivity.
  - reflexivity.
Qed.

Lemma hourly_fallback_witness :
  map Hourly.value
    (Hourly.fetchAndSet_hourly NumberCore.Number_core pretty
       (Some [JNull; JNumber (of_Z 7)])
       (Hourly.mkPollutants (Some (of_Z 41)) None None None None None))
  = [of_Z 41; of_Z 0; of_Z 0; of_Z 0; of_Z 0; of_Z 0].
Proof.
  rewrite (proj1 (hourly_fallback NumberCore.Number_core pretty
                    (Some [JNull; JNumber (of_Z 7)])
                    (Hourly.mkPollutants (Some (of_Z 41)) None None None
                       None None)
                    ltac:(right; right; eexists; reflexivity))).
  reflexivity.
Defined.

(** X19. When the array starts with an element that is not [null], the
    series is made of the elements before the first [null], at most 24 of
    them, one point for each, and the current readings are not used. *)
Theorem hourly_points (Number : option json → number)
    (hourLabel : nat → string) (good rest : list json)
    (iaqi : Hourly.Pollutants) :
  good ≠ [] → Forall (λ it, it ≠ JNull) good →
  rest = [] ∨ (∃ r, rest = JNull :: r) ∨ (24 ≤ length good)%nat →
  Hourly.fetchAndSet_hourly Number hourLabel (Some (good ++ rest)) iaqi
  = map (Hourly.make_point Number) (take 24 good).
Proof.
  intros Hne Hgood Hrest. unfold Hourly.fetchAndSet_hourly.
  assert (Hourly.push_points Number (take 24 (good ++ rest)) []
          = map (Hourly.make_point Number) (take 24 good)) as ->.
  { destruct (decide (24 ≤ length good)%nat) as [Hlong|Hshort].
    - rewrite take_app_le by exact Hlong.
      rewrite <- (app_nil_r (take 24 good)) at 1.
      rewrite push_points_prefix; [reflexivity| |now left].
      now apply Forall_take.
    - destruct Hrest as [->|[[r ->]|Hlong]]; [| |lia].
      + rewrite app_nil_r, (take_ge good) by lia.
        rewrite <- (app_nil_r good) at 1.
        rewrite push_points_prefix; [reflexivity|exact Hgood|now left].
      + rewrite take_app, (take_ge good) by lia.
        destruct (24 - length good)%nat as [|k] eqn:Ek; [lia|].
        cbn [take]. rewrite push_points_prefix; [reflexivity|exact Hgood|].
        right. eauto. }
  assert (length (take 24 good) ≠ 0%nat) as Hpos.
  { destruct good; [now destruct Hne|]. simpl. lia. }
  rewrite length_map.
  destruct (length (take 24 good) =? 0)%nat eqn:E;
    [apply Nat.eqb_eq in E; lia|].
  apply take_ge. rewrite length_map, length_take. lia.
Qed.

Lemma hourly_points_witness :
  Hourly.fetchAndSet_hourly NumberCore.Number_core pretty
    (Some ([JObject [("hour", JString "10"); ("avg", JNumber (of_Z 5))];
            JNumber (of_Z 7)] ++ [JNull; JNumber (of_Z 8)]))
    (Hourly.mkPollutants None None None None None None)
  = [Hourly.mkPoint (JString "10") (of_Z 5);
     Hourly.mkPoint (JString EmptyString) (of_Z 7)].
Proof.
  rewrite (hourly_points NumberCore.Number_core pretty
             [JObject [("hour", JString "10"); ("avg", JNumber (of_Z 5))];
              JNumber (of_Z 7)] [JNull; JNumber (of_Z 8)]).
  - reflexivity.
  - discriminate.
  - repeat constructor; discriminate.
  - right; left. eexists. reflexivity.
Defined.
